(** * f5cs_eap_security_events_monitoring: a shallow embedding

    The script polls the F5 Cloud Services Essential App Protect API for
    security events, builds at most twenty report rows and mails them.

    Conventions of the embedding.
    - Python values that travel through JSON and YAML are values of [json];
      Python's [None] and JSON's [null] are both [JNull].  Dictionaries are
      association lists in insertion order (the first binding of a key is the
      live one).  JSON numbers are integers.  A string stands for a Python
      [str] by its bytes; what the standard library does with text beyond
      ASCII, or leaves to the C library, is taken from a [Platform].
    - A computation is a function from the [world] to an outcome and the new
      world: effects done before an exception is raised stay done, as in
      Python.
    - The network is an oracle answering each request from the history of the
      run.  The file [tokens.yaml] is modelled by the document it holds
      ([yaml.dump] followed by [yaml.safe_load] gives the document back).
      Transport failures (no connection, unwritable file, SMTP failure) are
      outside the model. *)

From Stdlib Require Import String Ascii List ZArith Bool Arith Lia.
Import ListNotations.
Open Scope string_scope.
Open Scope list_scope.
Open Scope nat_scope.

(* ------------------------------------------------------------------ *)
(** ** Python values and the exceptions the script can meet *)

#[warnings="-register-all"]
Inductive json : Type :=
| JNull
| JBool (b : bool)
| JNum (z : Z)
| JStr (s : string)
| JList (items : list json)
| JObj (fields : list (string * json)).

Inductive exn : Type :=
| AuthenticationError (msg : string)
| KeyError (key : string)
| NameError (name : string)
| TypeError
| AttributeError
| ValueError
| FileNotFoundError
| JSONDecodeError.

Inductive result (A : Type) : Type :=
| Ok (a : A)
| Raise (e : exn).
Arguments Ok {A} a.
Arguments Raise {A} e.

Definition rbind {A B} (r : result A) (k : A -> result B) : result B :=
  match r with
  | Ok a => k a
  | Raise e => Raise e
  end.

Module PyNotations.
Declare Scope py_scope.
Delimit Scope py_scope with py.
Notation "'try!' x ':=' r 'in' k" := (rbind r (fun x => k))
  (at level 10, x pattern, r at level 100, k at level 200) : py_scope.
End PyNotations.
Import PyNotations.
Open Scope py_scope.

(** [d.get(key)] on the association list of a dictionary. *)
Fixpoint assoc (key : string) (fields : list (string * json)) : option json :=
  match fields with
  | [] => None
  | (k, v) :: rest => if String.eqb key k then Some v else assoc key rest
  end.

(** The dictionary without [key]. *)
Fixpoint remove_key (key : string) (fields : list (string * json))
  : list (string * json) :=
  match fields with
  | [] => []
  | (k, v) :: rest =>
      if String.eqb key k then remove_key key rest
      else (k, v) :: remove_key key rest
  end.

(** [v[key]] for a string key. *)
Definition py_getitem (v : json) (key : string) : result json :=
  match v with
  | JObj fields =>
      match assoc key fields with
      | Some x => Ok x
      | None => Raise (KeyError key)
      end
  | _ => Raise TypeError
  end.

(** [v.pop(key, None)]: the value (or [None]) and the object afterwards. *)
Definition py_pop (v : json) (key : string) : result (json * json) :=
  match v with
  | JObj fields =>
      match assoc key fields with
      | Some x => Ok (x, JObj (remove_key key fields))
      | None => Ok (JNull, JObj fields)
      end
  | JList _ => Raise TypeError
  | _ => Raise AttributeError
  end.

(** [needle in hay] on strings. *)
Fixpoint contains (needle hay : string) : bool :=
  prefix needle hay
  || match hay with
     | EmptyString => false
     | String _ rest => contains needle rest
     end.

Definition is_str (s : string) (v : json) : bool :=
  match v with
  | JStr t => String.eqb s t
  | _ => false
  end.

(** [needle in v] for a string [needle]. *)
Definition py_in (needle : string) (v : json) : result bool :=
  match v with
  | JStr s => Ok (contains needle s)
  | JList items => Ok (existsb (is_str needle) items)
  | JObj fields =>
      Ok (match assoc needle fields with Some _ => true | None => false end)
  | _ => Raise TypeError
  end.

(** What a [for] loop (and [len], [join]) sees of a value. *)
Fixpoint chars (s : string) : list json :=
  match s with
  | EmptyString => []
  | String c rest => JStr (String c EmptyString) :: chars rest
  end.

Definition py_iter (v : json) : result (list json) :=
  match v with
  | JList items => Ok items
  | JStr s => Ok (chars s)
  | JObj fields => Ok (map (fun kv => JStr (fst kv)) fields)
  | _ => Raise TypeError
  end.

Fixpoint all_str (items : list json) : result (list string) :=
  match items with
  | [] => Ok []
  | JStr s :: rest => try! l := all_str rest in Ok (s :: l)
  | _ :: _ => Raise TypeError
  end.

(** [sep.join(v)]. *)
Definition py_join (sep : string) (v : json) : result string :=
  try! items := py_iter v in
  try! strs := all_str items in
  Ok (String.concat sep strs).

(* ------------------------------------------------------------------ *)
(** ** Dates: [datetime.strptime] and [strftime] for the two formats used *)

Record datetime : Type := mkDatetime {
  year : nat; month : nat; day : nat;
  hour : nat; minute : nat; second : nat
}.

Definition between (lo hi c : ascii) : bool :=
  (nat_of_ascii lo <=? nat_of_ascii c) && (nat_of_ascii c <=? nat_of_ascii hi).

Definition is_digit (c : ascii) : bool := between "0" "9" c.
Definition digit_val (c : ascii) : nat := nat_of_ascii c - 48.
Definition digit_char (n : nat) : ascii := ascii_of_nat (48 + n).

(** The alternatives of the directive patterns of CPython's [_strptime]:
    two-character ones first, then the one-character one. *)
Definition m_two (a b : ascii) : bool :=
  (Ascii.eqb a "1" && between "0" "2" b) || (Ascii.eqb a "0" && between "1" "9" b).
Definition m_one (a : ascii) : bool := between "1" "9" a.

Definition d_two (a b : ascii) : bool :=
  (Ascii.eqb a "3" && between "0" "1" b)
  || (between "1" "2" a && is_digit b)
  || (Ascii.eqb a "0" && between "1" "9" b)
  || (Ascii.eqb a " " && between "1" "9" b).
Definition d_one (a : ascii) : bool := between "1" "9" a.

Definition H_two (a b : ascii) : bool :=
  (Ascii.eqb a "2" && between "0" "3" b) || (between "0" "1" a && is_digit b).
Definition H_one (a : ascii) : bool := is_digit a.

Definition M_two (a b : ascii) : bool := between "0" "5" a && is_digit b.
Definition M_one (a : ascii) : bool := is_digit a.

Definition S_two (a b : ascii) : bool :=
  (Ascii.eqb a "6" && between "0" "1" b) || (between "0" "5" a && is_digit b).
Definition S_one (a : ascii) : bool := is_digit a.

(** [int] of a matched group of two characters (a leading space counts 0). *)
Definition two_val (a b : ascii) : nat :=
  (if Ascii.eqb a " " then 0 else 10 * digit_val a) + digit_val b.

(** One directive: the value and what is left of the string.  Every
    directive of the format is followed by a literal that is neither a digit
    nor a space, so trying the two-character alternatives first loses no
    match. *)
Definition field (two : ascii -> ascii -> bool) (one : ascii -> bool)
    (s : string) : option (nat * string) :=
  match s with
  | String a (String b rest) =>
      if two a b then Some (two_val a b, rest)
      else if one a then Some (digit_val a, String b rest)
      else None
  | String a EmptyString => if one a then Some (digit_val a, EmptyString) else None
  | EmptyString => None
  end.

(** [%Y]: exactly four digits. *)
Definition field_Y (s : string) : option (nat * string) :=
  match s with
  | String a (String b (String c (String d rest))) =>
      if is_digit a && is_digit b && is_digit c && is_digit d
      then Some (1000 * digit_val a + 100 * digit_val b
                 + 10 * digit_val c + digit_val d, rest)
      else None
  | _ => None
  end.

(** A literal of the format; the pattern is compiled with [re.IGNORECASE]. *)
Definition literal (c : ascii) (s : string) : option string :=
  match s with
  | String a rest =>
      if Ascii.eqb a c
         || (between "A" "Z" c && Ascii.eqb a (ascii_of_nat (nat_of_ascii c + 32)))
      then Some rest else None
  | EmptyString => None
  end.

Definition obind {A B} (o : option A) (k : A -> option B) : option B :=
  match o with Some a => k a | None => None end.

(** The match of ["%Y-%m-%dT%H:%M:%SZ"] against the whole string. *)
Definition match_format (s : string) : option datetime :=
  obind (field_Y s) (fun '(year, s) =>
  obind (literal "-" s) (fun s =>
  obind (field m_two m_one s) (fun '(month, s) =>
  obind (literal "-" s) (fun s =>
  obind (field d_two d_one s) (fun '(day, s) =>
  obind (literal "T" s) (fun s =>
  obind (field H_two H_one s) (fun '(hour, s) =>
  obind (literal ":" s) (fun s =>
  obind (field M_two M_one s) (fun '(minute, s) =>
  obind (literal ":" s) (fun s =>
  obind (field S_two S_one s) (fun '(second, s) =>
  obind (literal "Z" s) (fun s =>
  match s with
  | EmptyString => Some (mkDatetime year month day hour minute second)
  | _ => None                               (* unconverted data remains *)
  end)))))))))))).

Definition is_leap (y : nat) : bool :=
  (y mod 4 =? 0) && (negb (y mod 100 =? 0) || (y mod 400 =? 0)).

Definition days_in_month (y m : nat) : nat :=
  match m with
  | 2 => if is_leap y then 29 else 28
  | 4 | 6 | 9 | 11 => 30
  | _ => 31
  end.

(** The checks of the [datetime] constructor. *)
Definition valid_datetime (t : datetime) : bool :=
  (1 <=? year t) && (Z.of_nat (year t) <=? 9999)%Z
  && (1 <=? month t) && (month t <=? 12)
  && (1 <=? day t) && (day t <=? days_in_month (year t) (month t))
  && (hour t <=? 23) && (minute t <=? 59) && (second t <=? 59).

(** [datetime.datetime.strptime(v, "%Y-%m-%dT%H:%M:%SZ")]. *)
Definition strptime (v : json) : result datetime :=
  match v with
  | JStr s =>
      match match_format s with
      | Some t => if valid_datetime t then Ok t else Raise ValueError
      | None => Raise ValueError
      end
  | _ => Raise TypeError
  end.

Definition pad2 (n : nat) : string :=
  String (digit_char (n / 10)) (String (digit_char (n mod 10)) EmptyString).

Definition pad4 (n : nat) : string :=
  String (digit_char (n / 1000))
    (String (digit_char ((n / 100) mod 10))
       (String (digit_char ((n / 10) mod 10))
          (String (digit_char (n mod 10)) EmptyString))).

(** [%b] in the C locale. *)
Definition month_abbr (m : nat) : string :=
  match m with
  | 1 => "Jan" | 2 => "Feb" | 3 => "Mar" | 4 => "Apr"
  | 5 => "May" | 6 => "Jun" | 7 => "Jul" | 8 => "Aug"
  | 9 => "Sep" | 10 => "Oct" | 11 => "Nov" | _ => "Dec"
  end.

Fixpoint is_ascii (s : string) : bool :=
  match s with
  | EmptyString => true
  | String c rest => (nat_of_ascii c <? 128) && is_ascii rest
  end.

(** What the script takes from the interpreter and the C library and this
    development does not fix: [str.title] on text beyond ASCII (it follows
    the Unicode character database), and the text [strftime] writes for [%Y]
    when the year is below 1000 (glibc writes it as it is, other C libraries
    pad it to four digits). *)
Class Platform : Type := {
  unicode_title : string -> string;
  short_year : nat -> string
}.

(** [%Y]: from year 1000 on, the four digits of the year. *)
Definition year_text {P : Platform} (y : nat) : string :=
  if 1000 <=? y then pad4 y else short_year y.

(** [t.strftime("%b %d, %Y/%H:%M:%S")]. *)
Definition strftime {P : Platform} (t : datetime) : string :=
  (month_abbr (month t) ++ " " ++ pad2 (day t) ++ ", " ++ year_text (year t)
   ++ "/" ++ pad2 (hour t) ++ ":" ++ pad2 (minute t) ++ ":" ++ pad2 (second t))%string.

(** [t.strftime("%Y-%m-%dT%H:%M:%SZ")], the form of the API's timestamps. *)
Definition isoformat {P : Platform} (t : datetime) : string :=
  (year_text (year t) ++ "-" ++ pad2 (month t) ++ "-" ++ pad2 (day t)
   ++ "T" ++ pad2 (hour t) ++ ":" ++ pad2 (minute t) ++ ":" ++ pad2 (second t)
   ++ "Z")%string.

(* ------------------------------------------------------------------ *)
(** ** [str.title] *)

Definition is_lower (c : ascii) : bool := between "a" "z" c.
Definition is_upper (c : ascii) : bool := between "A" "Z" c.
Definition to_upper (c : ascii) : ascii := ascii_of_nat (nat_of_ascii c - 32).
Definition to_lower (c : ascii) : ascii := ascii_of_nat (nat_of_ascii c + 32).

(** [str.title] on ASCII text: a letter that follows a letter is lowered,
    any other letter is raised. *)
Fixpoint title_from (previous_is_cased : bool) (s : string) : string :=
  match s with
  | EmptyString => EmptyString
  | String c rest =>
      if is_lower c then
        String (if previous_is_cased then c else to_upper c) (title_from true rest)
      else if is_upper c then
        String (if previous_is_cased then to_lower c else c) (title_from true rest)
      else String c (title_from false rest)
  end.

(** [s.title()]. *)
Definition title {P : Platform} (s : string) : string :=
  if is_ascii s then title_from false s else unicode_title s.

(** [v.title()]. *)
Definition py_title {P : Platform} (v : json) : result string :=
  match v with
  | JStr s => Ok (title s)
  | _ => Raise AttributeError
  end.

(* ------------------------------------------------------------------ *)
(** ** The report rows *)

(** The body of the loop: the row built from [sec_incident], and
    [sec_incident] after the [pop]s. *)
Definition jinja_item_dict {P : Platform} (sec_incident : json)
  : result (json * json) :=
  try! (v, inc) := py_pop sec_incident "date_time" in
  try! inc_time := strptime v in
  let date_time := JStr (strftime inc_time) in
  try! (uri, inc) := py_pop inc "uri" in
  try! (severity, inc) := py_pop inc "severity" in
  try! (v, inc) := py_pop inc "detection_events" in
  try! detection_events := py_join ", " v in
  try! (v, inc) := py_pop inc "attack_types" in
  try! attack_types := py_join ", " v in
  try! (request_status, inc) := py_pop inc "request_status" in
  try! (source_ip, inc) := py_pop inc "source_ip" in
  try! (v, inc) := py_pop inc "geo_country" in
  try! geo_country := py_title v in
  Ok (JObj [("date_time", date_time);
            ("uri", uri);
            ("severity", severity);
            ("detection_events", JStr detection_events);
            ("attack_types", JStr attack_types);
            ("request_status", request_status);
            ("source_ip", source_ip);
            ("geo_country", JStr geo_country)],
      inc).

(** The [for] loop with its counter [i]: the rows appended to [rows], and
    the events as the loop leaves them. *)
Fixpoint sec_inc_loop {P : Platform} (events : list json) (i : nat)
    (rows : list json) : result (list json * list json) :=
  match events with
  | [] => Ok (rows, [])
  | sec_incident :: rest =>
      if 20 <=? i then Ok (rows, sec_incident :: rest)
      else
        try! (row, inc) := jinja_item_dict sec_incident in
        try! (rows, rest) := sec_inc_loop rest (S i) (rows ++ [row]) in
        Ok (rows, inc :: rest)
  end.

(** Lines 149-169 on a sequence of raw events. *)
Definition build_rows {P : Platform} (events : list json)
  : result (list json * list json) :=
  if 0 <? length events then sec_inc_loop events 0 [] else Ok ([], events).

(** Lines 149-169 on the decoded answer of the events query. *)
Definition sec_inc_items {P : Platform} (security_incidents : json)
  : result (list json) :=
  try! events := py_getitem security_incidents "events" in
  try! events := py_iter events in
  try! (rows, _) := build_rows events in
  Ok rows.

(* ------------------------------------------------------------------ *)
(** ** HTTP, the token file and the trace of a run *)

Inductive header_value : Type :=
| HLit (s : string)
| HBearer (access_token : json).   (* f'Bearer {access_token}' *)

Record request : Type := mkRequest {
  url : string;
  data : json;                              (* json.dumps(...) of this value *)
  headers : list (string * header_value)
}.

Record response : Type := mkResponse {
  status_code : Z;
  content : option json                     (* None: the body is not JSON *)
}.

Definition response_json (r : response) : result json :=
  match content r with
  | Some v => Ok v
  | None => Raise JSONDecodeError
  end.

Record email : Type := mkEmail {
  Subject : string;
  From : json;
  To : string;
  html : string
}.

Inductive event : Type :=
| CallLogin (username password : json)
| CallRelogin (username refresh_token : json)
| Post (req : request) (resp : response)
| Dump (doc : json)                         (* yaml.dump(doc, tokens_file) *)
| Render (template : string) (data_dict : json)
| SmtpLogin (address password : json)
| Send (msg : email).

Record world : Type := mkWorld {
  trace : list event;                       (* oldest first *)
  tokens_yaml : option json                 (* None: no such file *)
}.

Definition M (A : Type) : Type := world -> result A * world.

Definition ret {A} (a : A) : M A := fun w => (Ok a, w).
Definition throw {A} (e : exn) : M A := fun w => (Raise e, w).
Definition lift {A} (r : result A) : M A := fun w => (r, w).

Definition bind {A B} (m : M A) (k : A -> M B) : M B :=
  fun w =>
    match m w with
    | (Ok a, w') => k a w'
    | (Raise e, w') => (Raise e, w')
    end.

Module MNotations.
Notation "'do!' x '<-' m ';' k" := (bind m (fun x => k))
  (at level 10, x pattern, m at level 100, k at level 200) : py_scope.
Notation "m ';;' k" := (bind m (fun _ => k))
  (at level 100, right associativity) : py_scope.
End MNotations.
Import MNotations.

Definition emit (e : event) : M unit :=
  fun w => (Ok tt, mkWorld (trace w ++ [e]) (tokens_yaml w)).

(** [with open('tokens.yaml', 'w') as f: yaml.dump(doc, f)]. *)
Definition dump_tokens (doc : json) : M unit :=
  fun w => (Ok tt, mkWorld (trace w ++ [Dump doc]) (Some doc)).

(** [with open('tokens.yaml', 'r') as f: yaml.safe_load(f)]. *)
Definition read_tokens : M json :=
  fun w =>
    match tokens_yaml w with
    | Some doc => (Ok doc, w)
    | None => (Raise FileNotFoundError, w)
    end.

(** The events of [t'] that come after [t]. *)
Definition since_trace (t t' : list event) : list event :=
  skipn (length t) t'.

Definition is_dump (e : event) : bool :=
  match e with Dump _ => true | _ => false end.

Definition is_login_call (e : event) : bool :=
  match e with CallLogin _ _ => true | _ => false end.

Definition posts_to (u : string) (e : event) : bool :=
  match e with Post req _ => String.eqb (url req) u | _ => false end.

Definition count (p : event -> bool) (t : list event) : nat :=
  length (filter p t).

Definition login_url : string :=
  "https://api.cloudservices.f5.com/v1/svc-auth/login".
Definition relogin_url : string :=
  "https://api.cloudservices.f5.com/v1/svc-auth/relogin".
Definition sec_incidents_url : string :=
  "https://api.cloudservices.f5.com/waf/v1/analytics/security/events".

Definition json_headers : list (string * header_value) :=
  [("Content-type", HLit "application/json");
   ("Accept-Encoding", HLit "gzip, deflate, br");
   ("Connection", HLit "keep-alive")].

Definition bad_credentials_msg : string :=
  "Can't authenticate to https://api.cloudservices.f5.com/v1/svc-auth/login. Incorrect username or password.".

(** The module-level names the functions read without receiving them. *)
Record globals : Type := mkGlobals {
  username : json;                          (* os.environ.get('USERNAME') *)
  password : json;                          (* os.environ.get('PASSWORD') *)
  refresh_token : option json               (* None: the name is not bound *)
}.

(** The constants and environment variables of the module. *)
Record config : Type := mkConfig {
  USERNAME : json;
  PASSWORD : json;
  service_instance_id : string;
  subscription_id : string;
  app_name : string;
  EMAIL_ADDRESS : json;
  EMAIL_PASSWORD : json;
  recipient : string                        (* msg['To'] *)
}.

Definition TEMPLATE_FILE : string := "jinja_table_1.html".

Section Client.

(** The service: the answer to a request, given the run so far. *)
Variable server : list event -> request -> response.

(** The template engine: [env.get_template(template).render(data_dict)]. *)
Variable render_template : string -> json -> string.

Context {P : Platform}.

(** [requests.post(url, data=json.dumps(data), headers=headers)]. *)
Definition post (req : request) : M response :=
  fun w =>
    let resp := server (trace w) req in
    (Ok resp, mkWorld (trace w ++ [Post req resp]) (tokens_yaml w)).

(** [resp.status_code == 400 and marker in resp.json()["error"]]. *)
Definition rejected_with (marker : string) (resp : response) : result bool :=
  if (status_code resp =? 400)%Z then
    try! body := response_json resp in
    try! err := py_getitem body "error" in
    py_in marker err
  else Ok false.

Definition login_query (username password : json) : request :=
  mkRequest login_url
    (JObj [("username", username); ("password", password)])
    json_headers.

Definition login (username password : json) : M json :=
  emit (CallLogin username password);;
  do! login_request <- post (login_query username password);
  do! rejected <- lift (rejected_with "Incorrect username or password" login_request);
  if rejected then throw (AuthenticationError bad_credentials_msg)
  else if (status_code login_request =? 200)%Z then
    do! body <- lift (response_json login_request);
    do! access_token <- lift (py_getitem body "access_token");
    dump_tokens body;;
    ret access_token
  else ret JNull.

Definition relogin_query (username refresh_token : json) : request :=
  mkRequest relogin_url
    (JObj [("username", username); ("refresh_token", refresh_token)])
    json_headers.

Definition relogin (g : globals) (username refresh_token : json) : M json :=
  emit (CallRelogin username refresh_token);;
  do! relogin_request <- post (relogin_query username refresh_token);
  do! rejected <- lift (rejected_with "Failed to re-login." relogin_request);
  if rejected then
    do! access_token <- login username (password g);
    ret access_token
  else if (status_code relogin_request =? 200)%Z then
    do! body <- lift (response_json relogin_request);
    do! access_token <- lift (py_getitem body "access_token");
    let tokens_dict :=
      JObj [("access_token", access_token); ("refresh_token", refresh_token)] in
    dump_tokens tokens_dict;;
    ret access_token
  else ret JNull.

Definition sec_incidents_data
    (service_instance_id subscription_id time_since time_until : json) : json :=
  JObj [("service_instance_id", service_instance_id);
        ("subscription_id", subscription_id);
        ("since", time_since);
        ("until:", time_until)].

Definition sec_incidents_headers (access_token : json)
  : list (string * header_value) :=
  json_headers ++ [("Authorization", HBearer access_token)].

Definition sec_incidents_query
    (service_instance_id subscription_id time_since time_until access_token : json)
  : request :=
  mkRequest sec_incidents_url
    (sec_incidents_data service_instance_id subscription_id time_since time_until)
    (sec_incidents_headers access_token).

(** Reading the global [refresh_token] inside a function. *)
Definition global_refresh_token (g : globals) : M json :=
  match refresh_token g with
  | Some v => ret v
  | None => throw (NameError "refresh_token")
  end.

Definition get_security_incidents (g : globals)
    (service_instance_id subscription_id time_since time_until access_token : json)
  : M json :=
  do! sec_incidents_request <-
    post (sec_incidents_query service_instance_id subscription_id
            time_since time_until access_token);
  do! sec_incidents_request <-
    (if (status_code sec_incidents_request =? 401)%Z then
       do! refresh_token <- global_refresh_token g;
       do! access_token <- relogin g (username g) refresh_token;
       post (sec_incidents_query service_instance_id subscription_id
               time_since time_until access_token)
     else ret sec_incidents_request);
  lift (response_json sec_incidents_request).

(** [try: ... except (KeyError, FileNotFoundError): ...]. *)
Definition except_missing {A} (body handler : M A) : M A :=
  fun w =>
    match body w with
    | (Raise (KeyError _), w') => handler w'
    | (Raise FileNotFoundError, w') => handler w'
    | other => other
    end.

(** Lines 131-134: the two tokens read from [tokens.yaml]. *)
Definition load_tokens : M (json * json) :=
  do! data <- read_tokens;
  do! access_token <- lift (py_getitem data "access_token");
  do! refresh_token <- lift (py_getitem data "refresh_token");
  ret (access_token, refresh_token).

(** Lines 129-138: the access token to use and the binding, if any, of
    the global [refresh_token]. *)
Definition startup (cfg : config) : M (json * option json) :=
  except_missing
    (do! (access_token, refresh_token) <- load_tokens;
     ret (access_token, Some refresh_token))
    (do! access_token <- login (USERNAME cfg) (PASSWORD cfg);
     ret (access_token, None)).

Definition generate_html_email_body (template : string) (data_dict : json)
  : M string :=
  emit (Render template data_dict);;
  ret (render_template template data_dict).

(** Lines 171-190: the mail, sent only if there are rows. *)
Definition send_report (cfg : config) (sec_inc_items : list json) : M unit :=
  if 0 <? length sec_inc_items then
    let jinja_dict :=
      JObj [("app_name", JStr (app_name cfg));
            ("sec_inc_items", JList sec_inc_items)] in
    do! sec_incidents_html <- generate_html_email_body TEMPLATE_FILE jinja_dict;
    let msg :=
      mkEmail ("Attack detected for " ++ app_name cfg)%string
              (EMAIL_ADDRESS cfg) (recipient cfg) sec_incidents_html in
    emit (SmtpLogin (EMAIL_ADDRESS cfg) (EMAIL_PASSWORD cfg));;
    emit (Send msg)
  else ret tt.

(** One run of the script, with the two bounds of the time window as the
    clock gave them; the value is the final [sec_inc_items]. *)
Definition main (cfg : config) (time_since time_until : string)
  : M (list json) :=
  do! (access_token, refresh_token) <- startup cfg;
  let g := mkGlobals (USERNAME cfg) (PASSWORD cfg) refresh_token in
  do! security_incidents <-
    get_security_incidents g
      (JStr (service_instance_id cfg)) (JStr (subscription_id cfg))
      (JStr time_since) (JStr time_until) access_token;
  do! sec_inc_items <- lift (sec_inc_items security_incidents);
  send_report cfg sec_inc_items;;
  ret sec_inc_items.

End Client.

(* ------------------------------------------------------------------ *)
(** ** Observations on traces *)

Definition is_relogin_call (e : event) : bool :=
  match e with CallRelogin _ _ => true | _ => false end.

Definition is_render (e : event) : bool :=
  match e with Render _ _ => true | _ => false end.

Definition is_send (e : event) : bool :=
  match e with Send _ => true | _ => false end.

(** The events of a run of [m] from [w]. *)
Definition events_of {A} (m : M A) (w : world) : list event :=
  since_trace (trace w) (trace (snd (m w))).

(* ------------------------------------------------------------------ *)
(** ** Concrete services and inputs used by the examples *)

(** A service that answers from the endpoint and from how many requests the
    endpoint has had so far. *)
Definition by_url (answer : string -> nat -> response)
  : list event -> request -> response :=
  fun t req => answer (url req) (count (posts_to (url req)) t).

Definition error_body (msg : string) : option json :=
  Some (JObj [("error", JStr msg)]).

Definition no_render : string -> json -> string := fun _ _ => "<html></html>".

Definition fresh : world := mkWorld [] None.

(** The world after the events [l], the token file untouched or rewritten. *)
Definition after (w : world) (l : list event) : world :=
  mkWorld (trace w ++ l) (tokens_yaml w).

Definition rewritten (w : world) (l : list event) (doc : json) : world :=
  mkWorld (trace w ++ l) (Some doc).

(** The answers [login] and [relogin] receive when started in [w]. *)
Definition login_response (server : list event -> request -> response)
    (u p : json) (w : world) : response :=
  server (trace w ++ [CallLogin u p]) (login_query u p).

Definition relogin_response (server : list event -> request -> response)
    (u rt : json) (w : world) : response :=
  server (trace w ++ [CallRelogin u rt]) (relogin_query u rt).

(** A 400 whose body carries an error message containing [marker]. *)
Definition carries_error (marker : string) (resp : response) : Prop :=
  status_code resp = 400%Z
  /\ exists body err,
       content resp = Some body
       /\ py_getitem body "error" = Ok err
       /\ py_in marker err = Ok true.

(** Every [Dump] comes right after a [Post] answered with status 200. *)
Fixpoint dumps_follow_200 (just_ok : bool) (l : list event) : bool :=
  match l with
  | [] => true
  | Dump _ :: rest => just_ok && dumps_follow_200 false rest
  | Post _ resp :: rest => dumps_follow_200 (status_code resp =? 200)%Z rest
  | _ :: rest => dumps_follow_200 false rest
  end.

(** A computation that writes the token file on success only. *)
Definition writes_on_success_only (m : M json) (w : world) : Prop :=
  dumps_follow_200 false (events_of m w) = true
  /\ (count is_dump (events_of m w) = 0 -> tokens_yaml (snd (m w)) = tokens_yaml w)
  /\ (count is_dump (events_of m w) <> 0 ->
      exists access_token doc,
        fst (m w) = Ok access_token
        /\ tokens_yaml (snd (m w)) = Some doc
        /\ py_getitem doc "access_token" = Ok access_token).

(** The events [login] and [relogin] always produce first. *)
Definition login_sent (server : list event -> request -> response)
    (u p : json) (w : world) : list event :=
  [CallLogin u p; Post (login_query u p) (login_response server u p w)].

Definition relogin_sent (server : list event -> request -> response)
    (u rt : json) (w : world) : list event :=
  [CallRelogin u rt; Post (relogin_query u rt) (relogin_response server u rt w)].

(** The ways [login] can end: without touching the token file, or having
    stored the body of a 200 answer and returning its access token. *)
Inductive login_path (server : list event -> request -> response)
    (u p : json) (w : world) : result json * world -> Prop :=
| login_quiet (r : result json) :
    status_code (login_response server u p w) <> 200%Z \/ (exists e, r = Raise e) ->
    login_path server u p w (r, after w (login_sent server u p w))
| login_stored (body access_token : json) :
    status_code (login_response server u p w) = 200%Z ->
    content (login_response server u p w) = Some body ->
    py_getitem body "access_token" = Ok access_token ->
    login_path server u p w
      (Ok access_token,
       rewritten w (login_sent server u p w ++ [Dump body]) body).

(** The ways [relogin] can end: quietly, having stored the new access token
    beside the refresh token it was given, or as the [login] it falls back
    to ends. *)
Inductive relogin_path (server : list event -> request -> response)
    (g : globals) (u rt : json) (w : world) : result json * world -> Prop :=
| relogin_quiet (r : result json) :
    status_code (relogin_response server u rt w) <> 200%Z \/ (exists e, r = Raise e) ->
    relogin_path server g u rt w (r, after w (relogin_sent server u rt w))
| relogin_stored (body access_token : json) :
    status_code (relogin_response server u rt w) = 200%Z ->
    content (relogin_response server u rt w) = Some body ->
    py_getitem body "access_token" = Ok access_token ->
    relogin_path server g u rt w
      (Ok access_token,
       rewritten w
         (relogin_sent server u rt w
          ++ [Dump (JObj [("access_token", access_token); ("refresh_token", rt)])])
         (JObj [("access_token", access_token); ("refresh_token", rt)]))
| relogin_fell_back (out : result json * world) :
    carries_error "Failed to re-login." (relogin_response server u rt w) ->
    out = login server u (password g) (after w (relogin_sent server u rt w)) ->
    login_path server u (password g) (after w (relogin_sent server u rt w)) out ->
    relogin_path server g u rt w out.

(** A response that is neither a 200 nor a rejection the function looks for:
    any status other than 200 and 400, or a 400 whose body has an [error]
    member that does not contain [marker]. *)
Definition unrecognized (marker : string) (resp : response) : Prop :=
  status_code resp <> 200%Z
  /\ (status_code resp <> 400%Z
      \/ exists body err,
           content resp = Some body
           /\ py_getitem body "error" = Ok err
           /\ py_in marker err = Ok false).

Definition token_body (access refresh : string) : option json :=
  Some (JObj [("access_token", JStr access); ("refresh_token", JStr refresh)]).

Definition no_events : response :=
  mkResponse 200 (Some (JObj [("events", JList [])])).

(** Every endpoint accepts. *)
Definition healthy : list event -> request -> response :=
  by_url (fun u _ =>
    if String.eqb u login_url then mkResponse 200 (token_body "A1" "R1")
    else if String.eqb u relogin_url
    then mkResponse 200 (Some (JObj [("access_token", JStr "A2")]))
    else no_events).

(** The refresh token has expired; the password is still good. *)
Definition expired_refresh : list event -> request -> response :=
  by_url (fun u n =>
    if String.eqb u login_url then mkResponse 200 (token_body "A1" "R1")
    else if String.eqb u relogin_url
    then mkResponse 400 (error_body "Failed to re-login.")
    else if n =? 0 then mkResponse 401 None else no_events).

(** Both tokens have expired and the password is refused. *)
Definition locked_out : list event -> request -> response :=
  by_url (fun u _ =>
    if String.eqb u login_url
    then mkResponse 400 (error_body "Incorrect username or password")
    else if String.eqb u relogin_url
    then mkResponse 400 (error_body "Failed to re-login.")
    else mkResponse 401 None).

(** The service answers 400 with a body that has no [error] member. *)
Definition bare_400 : list event -> request -> response :=
  by_url (fun _ _ => mkResponse 400 (Some (JObj []))).

(** The service is down. *)
Definition unavailable : list event -> request -> response :=
  by_url (fun _ _ => mkResponse 503 None).

(** What [relogin] can add to the trace after its own request: the events
    of the [login] it falls back to, or its own write. *)
Definition is_fallback_event (e : event) : bool :=
  match e with
  | CallLogin _ _ | Dump _ => true
  | Post req _ => String.eqb (url req) login_url
  | _ => false
  end.

Definition alice : json := JStr "alice".
Definition secret : json := JStr "secret".
Definition R0 : json := JStr "R0".
Definition alice_globals : globals := mkGlobals alice secret (Some R0).

Definition shop : config :=
  mkConfig alice secret "instance-1" "subscription-1" "shop"
    (JStr "monitor@example.org") (JStr "mail-secret") "soc@example.org".

(* ------------------------------------------------------------------ *)
(** ** The report rows, as the specification words them *)

(** [f] on each element in order, stopping at the first exception. *)
Fixpoint traverse {A B} (f : A -> result B) (l : list A) : result (list B) :=
  match l with
  | [] => Ok []
  | a :: rest =>
      try! b := f a in
      try! bs := traverse f rest in
      Ok (b :: bs)
  end.

(** The rows of the first twenty events, in order; the events after the
    twentieth are left as they are. *)
Definition build_rows_spec {P : Platform} (events : list json)
  : result (list json * list json) :=
  try! done := traverse jinja_item_dict (firstn 20 events) in
  Ok (map fst done, map snd done ++ skipn 20 events).

Definition is_string (v : json) : bool :=
  match v with JStr _ => true | _ => false end.

Definition is_string_list (v : option json) : bool :=
  match v with
  | Some (JList items) => forallb is_string items
  | _ => false
  end.

(** A raw event as the API documents it, as far as the loop depends on it:
    a record with a timestamp in the format parsed, two lists of strings and
    a country name. *)
Definition is_security_event (e : json) : bool :=
  match e with
  | JObj fields =>
      match assoc "date_time" fields with
      | Some (JStr s) =>
          match strptime (JStr s) with Ok _ => true | Raise _ => false end
      | _ => false
      end
      && is_string_list (assoc "detection_events" fields)
      && is_string_list (assoc "attack_types" fields)
      && match assoc "geo_country" fields with
         | Some (JStr _) => true
         | _ => false
         end
  | _ => false
  end.

(** [d.get(key)] with [None] for a missing key. *)
Definition dict_get (key : string) (fields : list (string * json)) : json :=
  match assoc key fields with
  | Some v => v
  | None => JNull
  end.

(** The event of the specification's example and its row. *)
Definition sqli_event : json :=
  JObj [("date_time", JStr "2023-06-01T09:32:00Z");
        ("uri", JStr "/login");
        ("severity", JStr "high");
        ("detection_events", JList [JStr "sqli"]);
        ("attack_types", JList [JStr "sql injection"]);
        ("request_status", JStr "blocked");
        ("source_ip", JStr "1.2.3.4");
        ("geo_country", JStr "united states")].

Definition sqli_row : json :=
  JObj [("date_time", JStr "Jun 01, 2023/09:32:00");
        ("uri", JStr "/login");
        ("severity", JStr "high");
        ("detection_events", JStr "sqli");
        ("attack_types", JStr "sql injection");
        ("request_status", JStr "blocked");
        ("source_ip", JStr "1.2.3.4");
        ("geo_country", JStr "United States")].

(** The number of rows built from [n] copies of the example event. *)
Definition rows_from {P : Platform} (n : nat) : option nat :=
  match build_rows (repeat sqli_event n) with
  | Ok (rows, _) => Some (length rows)
  | Raise _ => None
  end.

(** The two characters [pad2] writes for each number from [lo] to [hi] match
    a two-character alternative of the directive and read back as the number. *)
Definition pad2_parses (two : ascii -> ascii -> bool) (lo hi : nat) : bool :=
  forallb
    (fun n =>
       two (digit_char (n / 10)) (digit_char (n mod 10))
       && (two_val (digit_char (n / 10)) (digit_char (n mod 10)) =? n))
    (seq lo (S hi - lo)).

(** Nothing of the notifier happens in [l]. *)
Definition no_mail (l : list event) : Prop :=
  count is_render l = 0 /\ count is_send l = 0.

(** The message the script builds around the rendered table. *)
Definition report_email (cfg : config) (sec_incidents_html : string) : email :=
  mkEmail ("Attack detected for " ++ app_name cfg)%string
          (EMAIL_ADDRESS cfg) (recipient cfg) sec_incidents_html.

Definition report_data (cfg : config) (sec_inc_items : list json) : json :=
  JObj [("app_name", JStr (app_name cfg));
        ("sec_inc_items", JList sec_inc_items)].

(** The service has one event to report, and the token file is in place. *)
Definition one_event : list event -> request -> response :=
  by_url (fun _ _ => mkResponse 200 (Some (JObj [("events", JList [sqli_event])]))).

Definition logged_in : world :=
  mkWorld [] (Some (JObj [("access_token", JStr "A0"); ("refresh_token", R0)])).

(* ------------------------------------------------------------------ *)
(** ** Vocabulary for the start-up block and for whole runs *)

(** No usable token file: no file at all, or a mapping that lacks one of the
    two keys (the cases the [except] clause catches). *)
Definition tokens_missing (w : world) : Prop :=
  tokens_yaml w = None
  \/ exists fields,
       tokens_yaml w = Some (JObj fields)
       /\ (assoc "access_token" fields = None
           \/ assoc "refresh_token" fields = None).

(** The [except] branch of the start-up block. *)
Definition first_login (server : list event -> request -> response)
    (cfg : config) : M (json * option json) :=
  do! access_token <- login server (USERNAME cfg) (PASSWORD cfg);
  ret (access_token, @None json).

(** The globals a run has once the start-up block is over. *)
Definition run_globals (cfg : config) (refresh_token : option json) : globals :=
  mkGlobals (USERNAME cfg) (PASSWORD cfg) refresh_token.

(** The query of a run that holds [access_token]. *)
Definition run_query (cfg : config) (time_since time_until : string)
    (access_token : json) : request :=
  sec_incidents_query (JStr (service_instance_id cfg)) (JStr (subscription_id cfg))
    (JStr time_since) (JStr time_until) access_token.

(** The names the loop pops from an event. *)
Definition popped_keys : list string :=
  ["date_time"; "uri"; "severity"; "detection_events"; "attack_types";
   "request_status"; "source_ip"; "geo_country"].

Definition is_post (e : event) : bool :=
  match e with Post _ _ => true | _ => false end.

(** The token file has been deleted. *)
Definition no_tokens : world := mkWorld [] None.

(** The password works, the events endpoint refuses the fresh token. *)
Definition rejects_fresh_token : list event -> request -> response :=
  by_url (fun u _ =>
    if String.eqb u login_url then mkResponse 200 (token_body "A1" "R1")
    else mkResponse 401 (error_body "token expired")).

(** The refresh endpoint is down while the access token has expired. *)
Definition refresh_down : list event -> request -> response :=
  by_url (fun u n =>
    if String.eqb u relogin_url then mkResponse 503 None
    else if String.eqb u login_url then mkResponse 200 (token_body "A1" "R1")
    else if n =? 0 then mkResponse 401 None else no_events).

(** The events endpoint answers 403 with an error body. *)
Definition forbidden : list event -> request -> response :=
  by_url (fun _ _ => mkResponse 403 (error_body "forbidden")).

(** The token file exists but is empty: [yaml.safe_load] gives [None]. *)
Definition empty_token_file : world := mkWorld [] (Some JNull).

(** Every answer is a 401 with an error body. *)
Definition always_401 : list event -> request -> response :=
  by_url (fun u _ =>
    if String.eqb u relogin_url
    then mkResponse 200 (Some (JObj [("access_token", JStr "A2")]))
    else mkResponse 401 (error_body "unauthorized")).

(** Upper bounds on what a stretch of trace holds: requests to the login,
    relogin and events endpoints, writes of the token file, requests in all. *)
Definition tally_le (logins relogins queries dumps posts : nat)
    (l : list event) : Prop :=
  count (posts_to login_url) l <= logins
  /\ count (posts_to relogin_url) l <= relogins
  /\ count (posts_to sec_incidents_url) l <= queries
  /\ count is_dump l <= dumps
  /\ count is_post l <= posts.

(** The requests a run may send: the login with the configured credentials,
    a relogin for the configured user, the query with the configured ids and
    the window of the run. *)
Definition run_request (cfg : config) (time_since time_until : string)
    (req : request) : Prop :=
  req = login_query (USERNAME cfg) (PASSWORD cfg)
  \/ (exists rt, req = relogin_query (USERNAME cfg) rt)
  \/ (exists access_token, req = run_query cfg time_since time_until access_token).

Definition only_requests (allowed : request -> Prop) (l : list event) : Prop :=
  forall req resp, In (Post req resp) l -> allowed req.

(** A field of an event that the loop does not pop. *)
Definition is_kept (field : string * json) : bool :=
  negb (existsb (String.eqb (fst field)) popped_keys).

(** An event with nothing but the fields the loop cannot do without, and
    one extra field. *)
Definition sparse_event : json :=
  JObj [("date_time", JStr "2023-06-01T09:32:00Z");
        ("detection_events", JList []);
        ("request_id", JStr "42");
        ("attack_types", JList [JStr "xss"; JStr "sqli"]);
        ("geo_country", JStr "FRANCE")].

(* ------------------------------------------------------------------ *)
(** ** The time window (lines 144-145)

    [datetime.now() - timedelta(0, seconds)], by the proleptic Gregorian
    ordinals of CPython's [datetime] ([_ymd2ord], [_ord2ymd] and [__add__]
    of [_pydatetime]).  The clock is read in whole seconds: [strftime] drops
    the microseconds, which the subtraction of whole seconds leaves alone. *)

Section Ordinals.

Local Open Scope Z_scope.

Definition is_leap_year (year : Z) : bool :=
  (year mod 4 =? 0) && (negb (year mod 100 =? 0) || (year mod 400 =? 0)).

Definition DAYS_IN_MONTH (month : Z) : Z :=
  match month with
  | 2 => 28
  | 4 | 6 | 9 | 11 => 30
  | _ => 31
  end.

Definition DAYS_BEFORE_MONTH (month : Z) : Z :=
  match month with
  | 1 => 0 | 2 => 31 | 3 => 59 | 4 => 90 | 5 => 120 | 6 => 151
  | 7 => 181 | 8 => 212 | 9 => 243 | 10 => 273 | 11 => 304 | _ => 334
  end.

Definition days_before_year (year : Z) : Z :=
  let y := year - 1 in
  y * 365 + y / 4 - y / 100 + y / 400.

Definition days_in_month_of (year month : Z) : Z :=
  if (month =? 2) && is_leap_year year then 29 else DAYS_IN_MONTH month.

Definition days_before_month (year month : Z) : Z :=
  DAYS_BEFORE_MONTH month + (if (2 <? month) && is_leap_year year then 1 else 0).

Definition ymd2ord (year month day : Z) : Z :=
  days_before_year year + days_before_month year month + day.

Definition DI400Y : Z := 146097.
Definition DI100Y : Z := 36524.
Definition DI4Y : Z := 1461.
Definition MAXORDINAL : Z := 3652059.

Definition ord2ymd (n : Z) : Z * Z * Z :=
  let n := n - 1 in
  let n400 := n / DI400Y in
  let n := n mod DI400Y in
  let year := n400 * 400 + 1 in
  let n100 := n / DI100Y in
  let n := n mod DI100Y in
  let n4 := n / DI4Y in
  let n := n mod DI4Y in
  let n1 := n / 365 in
  let n := n mod 365 in
  let year := year + n100 * 100 + n4 * 4 + n1 in
  if (n1 =? 4) || (n100 =? 4) then (year - 1, 12, 31)
  else
    let leapyear := (n1 =? 3) && (negb (n4 =? 24) || (n100 =? 3)) in
    let month := Z.shiftr (n + 50) 5 in
    let preceding :=
      DAYS_BEFORE_MONTH month + (if (2 <? month) && leapyear then 1 else 0) in
    if n <? preceding then
      let month := month - 1 in
      let preceding :=
        preceding
        - (DAYS_IN_MONTH month + (if (month =? 2) && leapyear then 1 else 0)) in
      (year, month, n - preceding + 1)
    else (year, month, n - preceding + 1).

(** [t.toordinal()]. *)
Definition toordinal (t : datetime) : Z :=
  ymd2ord (Z.of_nat (year t)) (Z.of_nat (month t)) (Z.of_nat (day t)).

(** The seconds from the start of day 0 of the calendar to [t]. *)
Definition stamp (t : datetime) : Z :=
  toordinal t * 86400
  + Z.of_nat (hour t) * 3600 + Z.of_nat (minute t) * 60 + Z.of_nat (second t).

(** [t - timedelta(0, seconds)]; [None] stands for OverflowError. *)
Definition minus_seconds (t : datetime) (seconds : Z) : option datetime :=
  let total := stamp t - seconds in
  let days := total / 86400 in
  let rest := total mod 86400 in
  if (0 <? days) && (days <=? MAXORDINAL) then
    let '(y, m, d) := ord2ymd days in
    Some (mkDatetime (Z.to_nat y) (Z.to_nat m) (Z.to_nat d)
            (Z.to_nat (rest / 3600)) (Z.to_nat ((rest mod 3600) / 60))
            (Z.to_nat ((rest mod 3600) mod 60)))
  else None.

(** Lines 144-145 for two readings of the clock, the first for [time_until]:
    the pair [(time_since, time_until)]. *)
Definition time_window {P : Platform} (now_until now_since : datetime)
  : option (string * string) :=
  match minus_seconds now_until 3600 with
  | None => None
  | Some time_until =>
      match minus_seconds now_since 14400 with
      | None => None
      | Some time_since => Some (isoformat time_since, isoformat time_until)
      end
  end.

(** [p] on the [2 ^ k] integers from [base] on. *)
Fixpoint all_in_block (k : nat) (base : Z) (p : Z -> bool) : bool :=
  match k with
  | O => p base
  | S k' => all_in_block k' base p && all_in_block k' (base + 2 ^ Z.of_nat k') p
  end.

(** What [ord2ymd] owes on a day of the first 400 years. *)
Definition cycle_day_ok (n : Z) : bool :=
  let '(y, m, d) := ord2ymd n in
  (ymd2ord y m d =? n)
  && (1 <=? y) && (y <=? 400) && ((145731 <? n) || (y <=? 399))
  && (1 <=? m) && (m <=? 12)
  && (1 <=? d) && (d <=? days_in_month_of y m).

(** The month and the day [ord2ymd] gives to day [n], counted from 0, of a
    year. *)
Definition month_day (leapyear : bool) (n : Z) : Z * Z :=
  let month := Z.shiftr (n + 50) 5 in
  let preceding :=
    DAYS_BEFORE_MONTH month + (if (2 <? month) && leapyear then 1 else 0) in
  if n <? preceding then
    let month := month - 1 in
    let preceding :=
      preceding
      - (DAYS_IN_MONTH month + (if (month =? 2) && leapyear then 1 else 0)) in
    (month, n - preceding + 1)
  else (month, n - preceding + 1).

(** What [month_day] owes on day [n] of a year. *)
Definition month_day_ok (leapyear : bool) (n : Z) : bool :=
  let '(m, d) := month_day leapyear n in
  (1 <=? m) && (m <=? 12) && (1 <=? d)
  && (d <=? DAYS_IN_MONTH m + (if (m =? 2) && leapyear then 1 else 0))
  && (DAYS_BEFORE_MONTH m + (if (2 <? m) && leapyear then 1 else 0) + d =? n + 1).

(** Where year [k + 1] of the first 400 starts, and whether it is leap, in
    terms of the centuries, four-year blocks and years before it. *)
Definition year_start_ok (k : Z) : bool :=
  let n100 := k / 100 in
  let n4 := (k mod 100) / 4 in
  let n1 := k mod 4 in
  (days_before_year (k + 1) =? n100 * DI100Y + n4 * DI4Y + n1 * 365)
  && Bool.eqb (is_leap_year (k + 1))
       ((n1 =? 3) && (negb (n4 =? 24) || (n100 =? 3))).

(** Where the months of a year of the first 400 lie among the ordinals. *)
Definition year_ok (y : Z) : bool :=
  forallb
    (fun m =>
       (1 <=? ymd2ord y m 1)
       && (ymd2ord y m (days_in_month_of y m)
           <=? (if y <=? 399 then 145731 else 146097))
       && ((y <? 2) || (366 <=? ymd2ord y m 1)))
    [1; 2; 3; 4; 5; 6; 7; 8; 9; 10; 11; 12].

End Ordinals.

Definition noon : datetime := mkDatetime 2023 6 1 12 32 0.
Definition new_year : datetime := mkDatetime 2024 1 1 0 30 15.

(** [%Y] as glibc writes a year below 1000: its digits, without padding. *)
Definition unpadded (y : nat) : string :=
  if y <? 10 then String (digit_char y) EmptyString
  else if y <? 100 then pad2 y
  else String (digit_char (y / 100)) (pad2 (y mod 100)).

(** The platform of the examples: glibc's [%Y], and a stand-in for
    [str.title] beyond ASCII, which the examples, whose text is ASCII, never
    consult. *)
#[global] Instance linux_ascii : Platform :=
  {| unicode_title := fun s => s; short_year := unpadded |}.

(** The service answers 400 with an error message the script does not look
    for. *)
Definition throttled : list event -> request -> response :=
  by_url (fun _ _ => mkResponse 400 (error_body "Too many requests")).

(** The service answers 400 with an [error] member that is [null]. *)
Definition null_error : list event -> request -> response :=
  by_url (fun _ _ => mkResponse 400 (Some (JObj [("error", JNull)]))).

(* ================================================================== *)
(** * Properties *)

(* ------------------------------------------------------------------ *)
(** ** Lists, strings and traces *)

Lemma since_trace_app (t l : list event) : since_trace t (t ++ l) = l.
Proof.
  unfold since_trace. induction t as [|e t IH]; simpl; [reflexivity | exact IH].
Qed.

Lemma events_of_after {A} (m : M A) (w : world) (r : result A) (l : list event) f :
  m w = (r, mkWorld (trace w ++ l) f) -> events_of m w = l.
Proof.
  intros E. unfold events_of. rewrite E. simpl. apply since_trace_app.
Qed.

Lemma prefix_refl (s : string) : prefix s s = true.
Proof.
  induction s as [|c s IH]; simpl; [reflexivity|].
  destruct (ascii_dec c c) as [_|N]; [exact IH | contradiction].
Qed.

Lemma contains_append (p s : string) : contains s (p ++ s)%string = true.
Proof.
  induction p as [|c p IH]; simpl.
  - destruct s; simpl; [reflexivity|].
    rewrite prefix_refl. destruct (ascii_dec a a); [reflexivity | contradiction].
  - rewrite IH. apply orb_true_r.
Qed.

(* ------------------------------------------------------------------ *)
(** ** AUTH CLIENT: the paths of [login] and [relogin] *)

Lemma rejected_with_true (marker : string) (resp : response) :
  rejected_with marker resp = Ok true <-> carries_error marker resp.
Proof.
  unfold rejected_with, carries_error, response_json. split.
  - destruct (Z.eqb_spec (status_code resp) 400) as [E|N]; [|discriminate].
    destruct (content resp) as [body|]; simpl; [|discriminate].
    destruct (py_getitem body "error") as [err|e] eqn:G; simpl; [|discriminate].
    intros H. split; [exact E|]. exists body, err. auto.
  - intros [E (body & err & Hc & Hg & Hin)].
    rewrite E, Hc. simpl. rewrite Hg. simpl. exact Hin.
Qed.

Lemma rejected_with_other_status (marker : string) (resp : response) :
  status_code resp <> 400%Z -> rejected_with marker resp = Ok false.
Proof.
  intros N. unfold rejected_with.
  destruct (Z.eqb_spec (status_code resp) 400); [contradiction | reflexivity].
Qed.

Section AuthPaths.

Variable server : list event -> request -> response.

Lemma login_eq (u p : json) (w : world) :
  let resp := login_response server u p w in
  let sent := [CallLogin u p; Post (login_query u p) resp] in
  login server u p w =
    match rejected_with "Incorrect username or password" resp with
    | Raise e => (Raise e, after w sent)
    | Ok true => (Raise (AuthenticationError bad_credentials_msg), after w sent)
    | Ok false =>
        if (status_code resp =? 200)%Z then
          match response_json resp with
          | Raise e => (Raise e, after w sent)
          | Ok body =>
              match py_getitem body "access_token" with
              | Raise e => (Raise e, after w sent)
              | Ok access_token =>
                  (Ok access_token, rewritten w (sent ++ [Dump body]) body)
              end
          end
        else (Ok JNull, after w sent)
    end.
Proof.
  unfold login, login_response, after, rewritten, bind, emit, post, lift,
    throw, ret, dump_tokens. simpl.
  destruct (rejected_with _ _) as [[|]|e]; simpl;
    rewrite <- ?app_assoc; simpl; try reflexivity.
  destruct (status_code _ =? 200)%Z; simpl; [|reflexivity].
  destruct (response_json _) as [body|e]; simpl; [|reflexivity].
  destruct (py_getitem body _) as [tok|e]; simpl;
    rewrite <- ?app_assoc; reflexivity.
Qed.

Lemma relogin_eq (g : globals) (u rt : json) (w : world) :
  let resp := relogin_response server u rt w in
  let sent := [CallRelogin u rt; Post (relogin_query u rt) resp] in
  relogin server g u rt w =
    match rejected_with "Failed to re-login." resp with
    | Raise e => (Raise e, after w sent)
    | Ok true => login server u (password g) (after w sent)
    | Ok false =>
        if (status_code resp =? 200)%Z then
          match response_json resp with
          | Raise e => (Raise e, after w sent)
          | Ok body =>
              match py_getitem body "access_token" with
              | Raise e => (Raise e, after w sent)
              | Ok access_token =>
                  let tokens_dict :=
                    JObj [("access_token", access_token); ("refresh_token", rt)] in
                  (Ok access_token,
                   rewritten w (sent ++ [Dump tokens_dict]) tokens_dict)
              end
          end
        else (Ok JNull, after w sent)
    end.
Proof.
  unfold relogin, relogin_response, after, rewritten, bind, emit, post, lift,
    throw, ret, dump_tokens. simpl.
  destruct (rejected_with _ _) as [[|]|e]; simpl;
    rewrite <- ?app_assoc; simpl; try reflexivity.
  - destruct (login _ _ _ _) as [[tok|e] w']; reflexivity.
  - destruct (status_code _ =? 200)%Z; simpl; [|reflexivity].
    destruct (response_json _) as [body|e]; simpl; [|reflexivity].
    destruct (py_getitem body _) as [tok|e]; simpl;
      rewrite <- ?app_assoc; reflexivity.
Qed.

End AuthPaths.

Section AuthOutcomes.

Variable server : list event -> request -> response.

Lemma login_paths (u p : json) (w : world) :
  login_path server u p w (login server u p w).
Proof.
  rewrite login_eq. fold (login_sent server u p w).
  destruct (rejected_with _ _) as [[|]|e] eqn:R.
  - apply login_quiet. right. eauto.
  - destruct (Z.eqb_spec (status_code (login_response server u p w)) 200) as [E|N].
    + unfold response_json.
      destruct (content _) as [body|] eqn:C; [|apply login_quiet; right; eauto].
      destruct (py_getitem body _) as [tok|e] eqn:G;
        [|apply login_quiet; right; eauto].
      now apply login_stored.
    + apply login_quiet. now left.
  - apply login_quiet. right. eauto.
Qed.

Lemma relogin_paths (g : globals) (u rt : json) (w : world) :
  relogin_path server g u rt w (relogin server g u rt w).
Proof.
  rewrite relogin_eq. fold (relogin_sent server u rt w).
  destruct (rejected_with _ _) as [[|]|e] eqn:R.
  - apply relogin_fell_back; [now apply rejected_with_true | reflexivity |].
    apply login_paths.
  - destruct (Z.eqb_spec (status_code (relogin_response server u rt w)) 200)
      as [E|N].
    + unfold response_json.
      destruct (content _) as [body|] eqn:C; [|apply relogin_quiet; right; eauto].
      destruct (py_getitem body _) as [tok|e] eqn:G;
        [|apply relogin_quiet; right; eauto].
      cbv zeta. now apply relogin_stored with (body := body).
    + apply relogin_quiet. now left.
  - apply relogin_quiet. right. eauto.
Qed.

End AuthOutcomes.

Section AuthTheorems.

Variable server : list event -> request -> response.

Lemma login_trace (u p : json) (w : world) :
  exists tail,
    trace (snd (login server u p w)) = trace w ++ login_sent server u p w ++ tail
    /\ forallb is_dump tail = true.
Proof.
  pose proof (login_paths server u p w) as P.
  inversion P as [r _ E | body tok _ _ _ E]; simpl.
  - exists []. auto.
  - exists [Dump body]. auto.
Qed.

Lemma relogin_trace (g : globals) (u rt : json) (w : world) :
  exists tail,
    trace (snd (relogin server g u rt w))
      = trace w ++ relogin_sent server u rt w ++ tail
    /\ forallb is_fallback_event tail = true.
Proof.
  pose proof (relogin_paths server g u rt w) as P.
  inversion P as [r _ E | body tok _ _ _ E | out _ Eo L E]; simpl.
  - exists []. auto.
  - eexists [Dump _]. auto.
  - rewrite Eo.
    destruct (login_trace u (password g) (after w (relogin_sent server u rt w)))
      as (tail & T & D).
    rewrite T. simpl. eexists. split; [rewrite <- app_assoc; reflexivity|].
    simpl. clear - D. induction tail as [|e tail IH]; [reflexivity|].
    simpl in *. apply andb_true_iff in D as [De D].
    destruct e; try discriminate. simpl. auto.
Qed.

Lemma login_writes_on_success_only (u p : json) (w : world) :
  writes_on_success_only (login server u p) w.
Proof.
  unfold writes_on_success_only, events_of.
  pose proof (login_paths server u p w) as P.
  inversion P as [r _ E | body tok S200 C G E]; simpl;
    rewrite since_trace_app; simpl.
  - repeat split; auto. intros N. now elim N.
  - rewrite S200. simpl. repeat split; [discriminate|]. intros _.
    exists tok, body. auto.
Qed.

Lemma relogin_writes_on_success_only (g : globals) (u rt : json) (w : world) :
  writes_on_success_only (relogin server g u rt) w.
Proof.
  unfold writes_on_success_only, events_of.
  pose proof (relogin_paths server g u rt w) as P.
  inversion P as [r _ E | body tok S200 C G E | out _ Eo L E]; simpl.
  - rewrite since_trace_app. simpl. repeat split; auto. intros N. now elim N.
  - rewrite since_trace_app. simpl. rewrite S200. simpl.
    repeat split; [discriminate|]. intros _. eexists tok, _.
    repeat split; reflexivity.
  - inversion L as [r _ E' | body tok S200 C G E']; simpl;
      rewrite <- app_assoc, since_trace_app; simpl.
    + repeat split; auto. intros N. now elim N.
    + rewrite S200. simpl. repeat split; [discriminate|]. intros _.
      exists tok, body. auto.
Qed.

(** C5. [relogin] answered with status 200 never invokes [login] (no call
    and no request to the login endpoint); answered with a 400 whose error
    message is the re-login failure, it ends exactly as the call
    [login(username, password)] made after its own request ends, and that
    call is the only invocation of [login]. *)
Theorem relogin_fallback_C5 (g : globals) (u rt : json) (w : world) :
  (status_code (relogin_response server u rt w) = 200%Z ->
     count is_login_call (events_of (relogin server g u rt) w) = 0
     /\ count (posts_to login_url) (events_of (relogin server g u rt) w) = 0)
  /\ (carries_error "Failed to re-login." (relogin_response server u rt w) ->
     relogin server g u rt w
       = login server u (password g) (after w (relogin_sent server u rt w))
     /\ filter is_login_call (events_of (relogin server g u rt) w)
        = [CallLogin u (password g)]).
Proof.
  split.
  - intros S200. unfold events_of. rewrite relogin_eq.
    rewrite rejected_with_other_status by (rewrite S200; discriminate).
    rewrite S200. simpl.
    destruct (response_json _) as [body|e]; simpl.
    + destruct (py_getitem body _) as [tok|e]; simpl;
        rewrite since_trace_app; split; reflexivity.
    + rewrite since_trace_app; split; reflexivity.
  - intros Hc. apply rejected_with_true in Hc.
    assert (E : relogin server g u rt w
                = login server u (password g) (after w (relogin_sent server u rt w))).
    { rewrite relogin_eq, Hc. reflexivity. }
    split; [exact E|]. unfold events_of. rewrite E.
    destruct (login_trace u (password g) (after w (relogin_sent server u rt w)))
      as (tail & T & D).
    rewrite T. simpl. rewrite <- app_assoc, since_trace_app. simpl.
    f_equal. clear - D. induction tail as [|e tail IH]; [reflexivity|].
    simpl in *. apply andb_true_iff in D as [De D].
    destruct e; try discriminate. simpl. auto.
Qed.

(** C6. [login] answered with a 400 whose error message says "Incorrect
    username or password" raises AuthenticationError after its single
    request, with the token file as it was; and both [login] and [relogin]
    write the token file only right after an answer with status 200, in a
    call that returns the stored access token. *)
Theorem login_rejected_C6 (g : globals) (u p rt : json) (w : world) :
  (carries_error "Incorrect username or password" (login_response server u p w) ->
     login server u p w
       = (Raise (AuthenticationError bad_credentials_msg),
          after w (login_sent server u p w))
     /\ events_of (login server u p) w = login_sent server u p w
     /\ count is_dump (events_of (login server u p) w) = 0
     /\ tokens_yaml (snd (login server u p w)) = tokens_yaml w)
  /\ writes_on_success_only (login server u p) w
  /\ writes_on_success_only (relogin server g u rt) w.
Proof.
  split; [|split].
  - intros Hc. apply rejected_with_true in Hc.
    assert (E : login server u p w
                = (Raise (AuthenticationError bad_credentials_msg),
                   after w (login_sent server u p w))).
    { rewrite login_eq, Hc. reflexivity. }
    unfold events_of. rewrite E. simpl. rewrite since_trace_app. auto.
  - apply login_writes_on_success_only.
  - apply relogin_writes_on_success_only.
Qed.

(** C8. A [relogin] answered with status 200 and a new access token returns
    that token and leaves in the token file the record made of the new
    access token and of the refresh token it was given; if the file held
    that refresh token before, its refresh_token field has not changed. *)
Theorem relogin_keeps_refresh_token_C8 (g : globals) (u rt : json) (w : world)
    (body access_token : json) :
  status_code (relogin_response server u rt w) = 200%Z ->
  content (relogin_response server u rt w) = Some body ->
  py_getitem body "access_token" = Ok access_token ->
  let w' := snd (relogin server g u rt w) in
  fst (relogin server g u rt w) = Ok access_token
  /\ tokens_yaml w'
     = Some (JObj [("access_token", access_token); ("refresh_token", rt)])
  /\ (forall doc, tokens_yaml w' = Some doc ->
        py_getitem doc "access_token" = Ok access_token
        /\ py_getitem doc "refresh_token" = Ok rt
        /\ forall old, tokens_yaml w = Some old ->
             py_getitem old "refresh_token" = Ok rt ->
             py_getitem doc "refresh_token" = py_getitem old "refresh_token").
Proof.
  intros S200 C G. cbv zeta. rewrite relogin_eq.
  rewrite rejected_with_other_status by (rewrite S200; discriminate).
  rewrite S200. unfold response_json. rewrite C, G. simpl.
  split; [reflexivity|]. split; [reflexivity|].
  intros doc D. injection D as <-.
  split; [reflexivity|]. split; [reflexivity|].
  intros old _ Hold. rewrite Hold. reflexivity.
Qed.

(** C10 (amended). [login] and [relogin] return [None], raise nothing and
    leave the token file alone when the answer has a status other than 200
    and 400, or is a 400 whose body is a mapping with an error member that
    is a string, a list or a mapping in which [in] does not find the message
    the function looks for. *)
Theorem unrecognized_response_C10 (g : globals) (u p rt : json) (w : world) :
  (unrecognized "Incorrect username or password" (login_response server u p w) ->
     login server u p w = (Ok JNull, after w (login_sent server u p w))
     /\ tokens_yaml (snd (login server u p w)) = tokens_yaml w
     /\ count is_dump (events_of (login server u p) w) = 0)
  /\ (unrecognized "Failed to re-login." (relogin_response server u rt w) ->
     relogin server g u rt w = (Ok JNull, after w (relogin_sent server u rt w))
     /\ tokens_yaml (snd (relogin server g u rt w)) = tokens_yaml w
     /\ count is_dump (events_of (relogin server g u rt) w) = 0).
Proof.
  assert (F : forall marker resp,
             unrecognized marker resp ->
             rejected_with marker resp = Ok false
             /\ (status_code resp =? 200)%Z = false).
  { intros marker resp [N200 H]. split; [|now apply Z.eqb_neq].
    destruct H as [N400 | (body & err & C & G & I)].
    - now apply rejected_with_other_status.
    - unfold rejected_with, response_json. rewrite C. simpl. rewrite G. simpl.
      rewrite I. destruct (status_code resp =? 400)%Z; reflexivity. }
  split; intros U; apply F in U as [R S].
  - assert (E : login server u p w = (Ok JNull, after w (login_sent server u p w))).
    { rewrite login_eq, R, S. reflexivity. }
    unfold events_of. rewrite E. simpl. rewrite since_trace_app. auto.
  - assert (E : relogin server g u rt w
                = (Ok JNull, after w (relogin_sent server u rt w))).
    { rewrite relogin_eq, R, S. reflexivity. }
    unfold events_of. rewrite E. simpl. rewrite since_trace_app. auto.
Qed.

End AuthTheorems.

(** C7. A [login] answered with status 200 and an access token stores the
    body of the answer in the token file; reading the file back gives the
    access token [login] returned, and when the body also carries a refresh
    token the start-up block loads both tokens without logging in again. *)
Theorem login_then_load_C7 (server : list event -> request -> response)
    (cfg : config) (u p : json) (w : world) (body access_token : json) :
  status_code (login_response server u p w) = 200%Z ->
  content (login_response server u p w) = Some body ->
  py_getitem body "access_token" = Ok access_token ->
  let w' := snd (login server u p w) in
  fst (login server u p w) = Ok access_token
  /\ tokens_yaml w' = Some body
  /\ (do! data <- read_tokens; lift (py_getitem data "access_token")) w'
     = (Ok access_token, w')
  /\ forall rt, py_getitem body "refresh_token" = Ok rt ->
       load_tokens w' = (Ok (access_token, rt), w')
       /\ startup server cfg w' = (Ok (access_token, Some rt), w').
Proof.
  intros S200 C G. cbv zeta. rewrite login_eq.
  rewrite rejected_with_other_status by (rewrite S200; discriminate).
  rewrite S200. unfold response_json. rewrite C, G. simpl.
  split; [reflexivity|]. split; [reflexivity|].
  split.
  - unfold bind, read_tokens, lift. simpl. rewrite G. reflexivity.
  - intros rt Grt.
    assert (L : load_tokens
                  (rewritten w (login_sent server u p w ++ [Dump body]) body)
                = (Ok (access_token, rt),
                   rewritten w (login_sent server u p w ++ [Dump body]) body)).
    { unfold load_tokens, bind, read_tokens, lift, ret. simpl.
      rewrite G, Grt. reflexivity. }
    split; [exact L|].
    unfold startup, except_missing, bind.
    unfold login_sent in L. simpl in L. rewrite L. reflexivity.
Qed.

Lemma login_then_load_C7_witness :
  status_code (login_response healthy alice secret fresh) = 200%Z
  /\ fst (login healthy alice secret fresh) = Ok (JStr "A1")
  /\ load_tokens (snd (login healthy alice secret fresh))
     = (Ok (JStr "A1", JStr "R1"), snd (login healthy alice secret fresh)).
Proof.
  split; [reflexivity|].
  destruct (login_then_load_C7 healthy shop alice secret fresh
              (JObj [("access_token", JStr "A1"); ("refresh_token", JStr "R1")])
              (JStr "A1") eq_refl eq_refl eq_refl) as (A & _ & _ & B).
  split; [exact A|]. exact (proj1 (B (JStr "R1") eq_refl)).
Defined.

Lemma relogin_fallback_C5_witness :
  count is_login_call (events_of (relogin healthy alice_globals alice R0) fresh) = 0
  /\ filter is_login_call
       (events_of (relogin expired_refresh alice_globals alice R0) fresh)
     = [CallLogin alice secret].
Proof.
  split.
  - apply (proj1 (relogin_fallback_C5 healthy alice_globals alice R0 fresh)).
    reflexivity.
  - apply (proj2 (relogin_fallback_C5 expired_refresh alice_globals alice R0 fresh)).
    split; [reflexivity|].
    exists (JObj [("error", JStr "Failed to re-login.")]), (JStr "Failed to re-login.").
    repeat split; reflexivity.
Defined.

Lemma login_rejected_C6_witness :
  login locked_out alice secret fresh
  = (Raise (AuthenticationError bad_credentials_msg),
     after fresh (login_sent locked_out alice secret fresh))
  /\ tokens_yaml (snd (login locked_out alice secret fresh)) = None.
Proof.
  destruct (proj1 (login_rejected_C6 locked_out alice_globals alice secret R0 fresh))
    as (A & _ & _ & B).
  - split; [reflexivity|].
    exists (JObj [("error", JStr "Incorrect username or password")]),
           (JStr "Incorrect username or password").
    repeat split; reflexivity.
  - split; [exact A | exact B].
Defined.

Lemma relogin_keeps_refresh_token_C8_witness :
  fst (relogin healthy alice_globals alice R0 fresh) = Ok (JStr "A2")
  /\ tokens_yaml (snd (relogin healthy alice_globals alice R0 fresh))
     = Some (JObj [("access_token", JStr "A2"); ("refresh_token", R0)]).
Proof.
  destruct (relogin_keeps_refresh_token_C8 healthy alice_globals alice R0 fresh
              (JObj [("access_token", JStr "A2")]) (JStr "A2")
              eq_refl eq_refl eq_refl) as (A & B & _).
  split; [exact A | exact B].
Defined.

Lemma unrecognized_response_C10_witness :
  (login unavailable alice secret fresh
   = (Ok JNull, after fresh (login_sent unavailable alice secret fresh))
   /\ relogin unavailable alice_globals alice R0 fresh
      = (Ok JNull, after fresh (relogin_sent unavailable alice R0 fresh)))
  /\ (login throttled alice secret fresh
      = (Ok JNull, after fresh (login_sent throttled alice secret fresh))
      /\ relogin throttled alice_globals alice R0 fresh
         = (Ok JNull, after fresh (relogin_sent throttled alice R0 fresh))).
Proof.
  destruct (unrecognized_response_C10 unavailable alice_globals alice secret R0 fresh)
    as [A B].
  destruct (unrecognized_response_C10 throttled alice_globals alice secret R0 fresh)
    as [C D].
  split; split.
  - apply A. split; [discriminate | left; discriminate].
  - apply B. split; [discriminate | left; discriminate].
  - apply C. split; [discriminate|]. right.
    exists (JObj [("error", JStr "Too many requests")]), (JStr "Too many requests").
    repeat split; reflexivity.
  - apply D. split; [discriminate|]. right.
    exists (JObj [("error", JStr "Too many requests")]), (JStr "Too many requests").
    repeat split; reflexivity.
Defined.

(** C10 as stated fails: a 400 whose body has no error member is neither a
    200 nor a 400 carrying the message, and [login] raises KeyError. *)
Lemma bare_400_raises_C10 :
  let resp := login_response bare_400 alice secret fresh in
  status_code resp <> 200%Z
  /\ ~ carries_error "Incorrect username or password" resp
  /\ fst (login bare_400 alice secret fresh) = Raise (KeyError "error").
Proof.
  cbv zeta. split; [discriminate|]. split; [|reflexivity].
  intros [_ (body & err & C & G & _)].
  injection C as <-. discriminate G.
Qed.

(** A 400 whose error member is [null] is no better: the test for the
    message raises TypeError in [login] and in [relogin]. *)
Lemma null_error_raises :
  fst (login null_error alice secret fresh) = Raise TypeError
  /\ fst (relogin null_error alice_globals alice R0 fresh) = Raise TypeError.
Proof. split; reflexivity. Qed.

(* ------------------------------------------------------------------ *)
(** ** EVENTS CLIENT *)

Lemma fallback_event_filters (tail : list event) :
  forallb is_fallback_event tail = true ->
  filter (posts_to sec_incidents_url) tail = []
  /\ filter is_relogin_call tail = [].
Proof.
  induction tail as [|e tail IH]; simpl; [auto|].
  intros H. apply andb_true_iff in H as [He Ht].
  destruct (IH Ht) as [IH1 IH2].
  destruct e; try discriminate; simpl; auto.
  simpl in He. apply String.eqb_eq in He. rewrite He. simpl. auto.
Qed.

Section EventsClient.

Variable server : list event -> request -> response.
Variable g : globals.
Variables sid sub since until : json.

Let query := sec_incidents_query sid sub since until.
Let run := get_security_incidents server g sid sub since until.

Lemma get_security_incidents_eq (access_token : json) (w : world) :
  let resp1 := server (trace w) (query access_token) in
  let w1 := after w [Post (query access_token) resp1] in
  run access_token w =
    if (status_code resp1 =? 401)%Z then
      match refresh_token g with
      | None => (Raise (NameError "refresh_token"), w1)
      | Some rt =>
          match relogin server g (username g) rt w1 with
          | (Ok new_token, w2) =>
              let resp2 := server (trace w2) (query new_token) in
              (response_json resp2, after w2 [Post (query new_token) resp2])
          | (Raise e, w2) => (Raise e, w2)
          end
      end
    else (response_json resp1, w1).
Proof.
  unfold run, query, get_security_incidents, after, bind, post, lift, ret,
    global_refresh_token, throw. simpl.
  destruct (status_code _ =? 401)%Z; simpl; [|reflexivity].
  destruct (refresh_token g) as [rt|]; simpl; [|reflexivity].
  destruct (relogin _ _ _ _ _) as [[new_token|e] w2]; reflexivity.
Qed.

Lemma relogin_filters (rt : json) (w : world) :
  exists l,
    trace (snd (relogin server g (username g) rt w)) = trace w ++ l
    /\ filter (posts_to sec_incidents_url) l = []
    /\ filter is_relogin_call l = [CallRelogin (username g) rt].
Proof.
  destruct (relogin_trace server g (username g) rt w) as (tail & T & F).
  apply fallback_event_filters in F as [F1 F2].
  exists (relogin_sent server (username g) rt w ++ tail).
  split; [exact T|]. simpl. rewrite F1, F2. auto.
Qed.

(** The requests to the events endpoint and the calls of [relogin] during
    one invocation, by the status of the first answer. *)
Lemma get_security_incidents_sent (access_token : json) (w : world) :
  let resp1 := server (trace w) (query access_token) in
  let w1 := after w [Post (query access_token) resp1] in
  let sent := filter (posts_to sec_incidents_url) (events_of (run access_token) w) in
  let calls := filter is_relogin_call (events_of (run access_token) w) in
  if (status_code resp1 =? 401)%Z then
    match refresh_token g with
    | None => sent = [Post (query access_token) resp1] /\ calls = []
    | Some rt =>
        calls = [CallRelogin (username g) rt]
        /\ match relogin server g (username g) rt w1 with
           | (Ok new_token, w2) =>
               sent = [Post (query access_token) resp1;
                       Post (query new_token) (server (trace w2) (query new_token))]
           | (Raise e, w2) => sent = [Post (query access_token) resp1]
           end
    end
  else sent = [Post (query access_token) resp1] /\ calls = [].
Proof.
  cbv zeta. unfold events_of. rewrite get_security_incidents_eq.
  destruct (status_code _ =? 401)%Z.
  - destruct (refresh_token g) as [rt|].
    + destruct (relogin_filters rt
                  (after w [Post (query access_token)
                              (server (trace w) (query access_token))]))
        as (l & T & F1 & F2).
      destruct (relogin _ _ _ _ _) as [[new_token|e] w2]; simpl in *;
        rewrite T, <- ?app_assoc, since_trace_app; simpl;
        rewrite ?filter_app, F1, F2; simpl; auto.
    + simpl. rewrite since_trace_app. simpl. auto.
  - simpl. rewrite since_trace_app. simpl. auto.
Qed.

End EventsClient.

(** C1 (amended). One invocation of [get_security_incidents] never sends
    more than two requests to the events endpoint.  When the first answer
    has status 401 and the global refresh token is bound, [relogin] is
    called exactly once, with the global username and that refresh token.
    If [relogin] returns, the query is sent exactly once more, with the same
    url and body and the returned token as bearer, and the result is the
    body of that second answer whatever its status; if [relogin] raises, the
    exception propagates and no second query is sent. *)
Theorem get_security_incidents_retry_C1
    (server : list event -> request -> response) (g : globals)
    (sid sub since until access_token : json) (w : world) :
  let run := get_security_incidents server g sid sub since until access_token in
  let query := sec_incidents_query sid sub since until in
  let resp1 := server (trace w) (query access_token) in
  let w1 := after w [Post (query access_token) resp1] in
  let sent := filter (posts_to sec_incidents_url) (events_of run w) in
  length sent <= 2
  /\ (status_code resp1 = 401%Z ->
      forall rt, refresh_token g = Some rt ->
        filter is_relogin_call (events_of run w) = [CallRelogin (username g) rt]
        /\ (forall new_token w2,
              relogin server g (username g) rt w1 = (Ok new_token, w2) ->
              let resp2 := server (trace w2) (query new_token) in
              sent = [Post (query access_token) resp1; Post (query new_token) resp2]
              /\ url (query new_token) = url (query access_token)
              /\ data (query new_token) = data (query access_token)
              /\ headers (query new_token) = sec_incidents_headers new_token
              /\ run w = (response_json resp2, after w2 [Post (query new_token) resp2]))
        /\ (forall e w2,
              relogin server g (username g) rt w1 = (Raise e, w2) ->
              sent = [Post (query access_token) resp1]
              /\ run w = (Raise e, w2))).
Proof.
  cbv zeta.
  pose proof (get_security_incidents_sent server g sid sub since until access_token w)
    as S.
  pose proof (get_security_incidents_eq server g sid sub since until access_token w)
    as E.
  cbv zeta in S, E. split.
  - destruct (status_code _ =? 401)%Z.
    + destruct (refresh_token g) as [rt|].
      * destruct S as [_ S].
        destruct (relogin _ _ _ _ _) as [[new_token|e] w2]; rewrite S; simpl; lia.
      * destruct S as [S _]. rewrite S. simpl. lia.
    + destruct S as [S _]. rewrite S. simpl. lia.
  - intros S401 rt Hrt. rewrite S401 in S, E. simpl in S, E.
    rewrite Hrt in S, E. destruct S as [Sc Ss].
    split; [exact Sc|]. split.
    + intros new_token w2 R. rewrite R in Ss, E.
      repeat split; try assumption; try reflexivity.
    + intros e w2 R. rewrite R in Ss, E. auto.
Qed.

Lemma get_security_incidents_retry_C1_witness :
  let run :=
    get_security_incidents expired_refresh alice_globals
      (JStr "instance-1") (JStr "subscription-1")
      (JStr "2023-06-01T05:32:00Z") (JStr "2023-06-01T08:32:00Z") (JStr "A0") in
  filter is_relogin_call (events_of run fresh) = [CallRelogin alice R0]
  /\ length (filter (posts_to sec_incidents_url) (events_of run fresh)) = 2
  /\ fst (run fresh) = Ok (JObj [("events", JList [])]).
Proof.
  cbv zeta.
  destruct (get_security_incidents_retry_C1 expired_refresh alice_globals
              (JStr "instance-1") (JStr "subscription-1")
              (JStr "2023-06-01T05:32:00Z") (JStr "2023-06-01T08:32:00Z")
              (JStr "A0") fresh) as [_ H].
  destruct (H eq_refl R0 eq_refl) as (Calls & Returns & _).
  split; [exact Calls|].
  destruct (Returns (JStr "A1") _ eq_refl) as (Sent & _ & _ & _ & Run).
  split.
  - rewrite Sent. reflexivity.
  - rewrite Run. reflexivity.
Defined.

(** C1 as stated fails: with both tokens expired and the password refused,
    the first answer is a 401, [relogin] raises AuthenticationError through
    its fallback to [login], and the query is not sent a second time. *)
Lemma locked_out_single_query_C1 :
  let run :=
    get_security_incidents locked_out alice_globals
      (JStr "instance-1") (JStr "subscription-1")
      (JStr "2023-06-01T05:32:00Z") (JStr "2023-06-01T08:32:00Z") (JStr "A0") in
  let query :=
    sec_incidents_query (JStr "instance-1") (JStr "subscription-1")
      (JStr "2023-06-01T05:32:00Z") (JStr "2023-06-01T08:32:00Z") (JStr "A0") in
  status_code (locked_out (trace fresh) query) = 401%Z
  /\ refresh_token alice_globals = Some R0
  /\ count (posts_to sec_incidents_url) (events_of run fresh) = 1
  /\ fst (run fresh) = Raise (AuthenticationError bad_credentials_msg).
Proof.
  cbv zeta. repeat split.
Qed.

(** C2 (the code departs from the claim). Every request one invocation sends
    to the events endpoint, and there is at least one, has the body built at
    the top of the function: its fourth key is ["until:"], colon included, and
    it has no key named ["until"]. *)
Theorem request_body_lacks_until_C2
    (server : list event -> request -> response) (g : globals)
    (sid sub since until access_token : json) (w : world) :
  let run := get_security_incidents server g sid sub since until access_token in
  let sent := filter (posts_to sec_incidents_url) (events_of run w) in
  let body :=
    JObj [("service_instance_id", sid); ("subscription_id", sub);
          ("since", since); ("until:", until)] in
  sent <> []
  /\ Forall (fun e => exists req resp, e = Post req resp /\ data req = body) sent
  /\ py_getitem body "until" = Raise (KeyError "until")
  /\ py_getitem body "until:" = Ok until.
Proof.
  cbv zeta.
  pose proof (get_security_incidents_sent server g sid sub since until access_token w)
    as S.
  cbv zeta in S.
  assert (P : forall tok resp,
             exists req resp',
               Post (sec_incidents_query sid sub since until tok) resp = Post req resp'
               /\ data req
                  = JObj [("service_instance_id", sid); ("subscription_id", sub);
                          ("since", since); ("until:", until)]).
  { intros tok resp. eexists _, _. split; reflexivity. }
  repeat split; try reflexivity.
  - destruct (status_code _ =? 401)%Z.
    + destruct (refresh_token g) as [rt|].
      * destruct S as [_ S].
        destruct (relogin _ _ _ _ _) as [[new_token|e] w2]; rewrite S; discriminate.
      * destruct S as [S _]. rewrite S. discriminate.
    + destruct S as [S _]. rewrite S. discriminate.
  - destruct (status_code _ =? 401)%Z.
    + destruct (refresh_token g) as [rt|].
      * destruct S as [_ S].
        destruct (relogin _ _ _ _ _) as [[new_token|e] w2]; rewrite S;
          repeat constructor; apply P.
      * destruct S as [S _]. rewrite S. repeat constructor; apply P.
    + destruct S as [S _]. rewrite S. repeat constructor; apply P.
Qed.

(* ------------------------------------------------------------------ *)
(** ** REPORT BUILDER: the loop *)

Lemma sec_inc_loop_spec {P : Platform} (events : list json) :
  forall i rows, i <= 20 ->
    sec_inc_loop events i rows =
      try! done := traverse jinja_item_dict (firstn (20 - i) events) in
      Ok (rows ++ map fst done, map snd done ++ skipn (20 - i) events).
Proof.
  induction events as [|e events IH]; intros i rows Hi.
  - destruct (20 - i); simpl; rewrite app_nil_r; reflexivity.
  - cbn [sec_inc_loop]. destruct (Nat.leb_spec 20 i) as [Hge|Hlt].
    + replace (20 - i) with 0 by lia. simpl. rewrite app_nil_r. reflexivity.
    + replace (20 - i) with (S (20 - S i)) by lia.
      cbn [firstn skipn traverse].
      destruct (jinja_item_dict e) as [[row inc]|x]; simpl; [|reflexivity].
      rewrite IH by lia.
      destruct (traverse _ _) as [done|x]; simpl; [|reflexivity].
      rewrite <- app_assoc. reflexivity.
Qed.

Lemma build_rows_refines {P : Platform} (events : list json) :
  build_rows events = build_rows_spec events.
Proof.
  unfold build_rows, build_rows_spec. destruct events as [|e events].
  - reflexivity.
  - cbn [length Nat.ltb Nat.leb]. rewrite sec_inc_loop_spec by lia.
    reflexivity.
Qed.

Lemma traverse_length {A B} (f : A -> result B) (l : list A) (bs : list B) :
  traverse f l = Ok bs -> length bs = length l.
Proof.
  revert bs. induction l as [|a l IH]; simpl; intros bs H.
  - injection H as <-. reflexivity.
  - destruct (f a) as [b|x]; simpl in H; [|discriminate].
    destruct (traverse f l) as [bs'|x]; simpl in H; [|discriminate].
    injection H as <-. simpl. f_equal. now apply IH.
Qed.

Lemma traverse_total {A B} (f : A -> result B) (l : list A) :
  Forall (fun a => exists b, f a = Ok b) l -> exists bs, traverse f l = Ok bs.
Proof.
  induction 1 as [|a l [b Hb] _ [bs Hbs]]; simpl.
  - eauto.
  - rewrite Hb, Hbs. simpl. eauto.
Qed.

(* ------------------------------------------------------------------ *)
(** ** REPORT BUILDER: one row *)

Lemma remove_key_absent (key : string) (fields : list (string * json)) :
  assoc key fields = None -> remove_key key fields = fields.
Proof.
  induction fields as [|[k v] fields IH]; simpl; [reflexivity|].
  destruct (String.eqb key k); [discriminate|].
  intros H. now rewrite IH.
Qed.

Lemma assoc_remove_key_other (key other : string) (fields : list (string * json)) :
  key <> other -> assoc key (remove_key other fields) = assoc key fields.
Proof.
  intros N. induction fields as [|[k v] fields IH]; simpl; [reflexivity|].
  destruct (String.eqb_spec other k) as [E|Nk]; simpl.
  - subst k. apply String.eqb_neq in N. rewrite N. exact IH.
  - rewrite IH. reflexivity.
Qed.

Lemma py_pop_obj (key : string) (fields : list (string * json)) :
  py_pop (JObj fields) key = Ok (dict_get key fields, JObj (remove_key key fields)).
Proof.
  unfold py_pop, dict_get. destruct (assoc key fields) eqn:E; [reflexivity|].
  now rewrite remove_key_absent.
Qed.

Lemma dict_get_remove_key_other (key other : string) (fields : list (string * json)) :
  key <> other -> dict_get key (remove_key other fields) = dict_get key fields.
Proof.
  intros N. unfold dict_get. now rewrite assoc_remove_key_other.
Qed.

(** The eight [pop]s never fail on a record; what can fail is the parsing
    of the date, the two joins and the title-casing, in that order. *)
Lemma jinja_item_dict_obj {P : Platform} (fields : list (string * json)) :
  jinja_item_dict (JObj fields) =
    try! inc_time := strptime (dict_get "date_time" fields) in
    try! detection_events := py_join ", " (dict_get "detection_events" fields) in
    try! attack_types := py_join ", " (dict_get "attack_types" fields) in
    try! geo_country := py_title (dict_get "geo_country" fields) in
    Ok (JObj [("date_time", JStr (strftime inc_time));
              ("uri", dict_get "uri" fields);
              ("severity", dict_get "severity" fields);
              ("detection_events", JStr detection_events);
              ("attack_types", JStr attack_types);
              ("request_status", dict_get "request_status" fields);
              ("source_ip", dict_get "source_ip" fields);
              ("geo_country", JStr geo_country)],
        JObj (remove_key "geo_country" (remove_key "source_ip"
               (remove_key "request_status" (remove_key "attack_types"
                 (remove_key "detection_events" (remove_key "severity"
                   (remove_key "uri" (remove_key "date_time" fields))))))))).
Proof.
  unfold jinja_item_dict.
  repeat (rewrite py_pop_obj; cbn [rbind]).
  repeat (rewrite dict_get_remove_key_other by discriminate).
  destruct (strptime _) as [t|x]; cbn [rbind]; [|reflexivity].
  repeat (rewrite py_pop_obj; cbn [rbind]).
  repeat (rewrite dict_get_remove_key_other by discriminate).
  destruct (py_join _ (dict_get "detection_events" fields)) as [d|x];
    cbn [rbind]; [|reflexivity].
  repeat (rewrite py_pop_obj; cbn [rbind]).
  repeat (rewrite dict_get_remove_key_other by discriminate).
  destruct (py_join _ (dict_get "attack_types" fields)) as [a|x];
    cbn [rbind]; [|reflexivity].
  repeat (rewrite py_pop_obj; cbn [rbind]).
  repeat (rewrite dict_get_remove_key_other by discriminate).
  destruct (py_title _) as [c|x]; reflexivity.
Qed.


Lemma all_str_total (items : list json) :
  forallb is_string items = true -> exists strs, all_str items = Ok strs.
Proof.
  induction items as [|v items IH]; simpl; [eauto|].
  intros H. apply andb_true_iff in H as [Hv Hi].
  destruct v; try discriminate. destruct (IH Hi) as [strs E].
  rewrite E. simpl. eauto.
Qed.

Lemma jinja_item_dict_total {P : Platform} (e : json) :
  is_security_event e = true -> exists out, jinja_item_dict e = Ok out.
Proof.
  destruct e as [| | | |items|fields]; try discriminate.
  unfold is_security_event, is_string_list. intros H.
  repeat (apply andb_true_iff in H as [H ?]).
  rewrite jinja_item_dict_obj. unfold dict_get.
  destruct (assoc "date_time" fields) as [[| | |s| |]|]; try discriminate.
  destruct (strptime (JStr s)) as [t|x]; [|discriminate]. cbn [rbind].
  destruct (assoc "detection_events" fields) as [[| | | |des|]|]; try discriminate.
  destruct (assoc "attack_types" fields) as [[| | | |ats|]|]; try discriminate.
  destruct (assoc "geo_country" fields) as [[| | |c| |]|]; try discriminate.
  destruct (all_str_total des) as [ds Eds]; [assumption|].
  destruct (all_str_total ats) as [az Eaz]; [assumption|].
  unfold py_join, py_iter. cbn [rbind]. rewrite Eds, Eaz. simpl. eauto.
Qed.

(* ------------------------------------------------------------------ *)
(** ** REPORT BUILDER: timestamps *)

Lemma digit_char_digit (k : nat) :
  k < 10 -> is_digit (digit_char k) = true /\ digit_val (digit_char k) = k.
Proof.
  intros H. do 10 (destruct k as [|k]; [split; reflexivity|]). lia.
Qed.

Lemma four_digits (y : nat) :
  1000 * (y / 1000) + 100 * ((y / 100) mod 10) + 10 * ((y / 10) mod 10) + y mod 10 = y
  /\ ((Z.of_nat y <= 9999)%Z -> y / 1000 < 10).
Proof.
  replace (y / 1000) with (y / 10 / 10 / 10)
    by (rewrite !Nat.Div0.div_div; reflexivity).
  replace (y / 100) with (y / 10 / 10)
    by (rewrite !Nat.Div0.div_div; reflexivity).
  pose proof (Nat.div_mod_eq y 10).
  pose proof (Nat.div_mod_eq (y / 10) 10).
  pose proof (Nat.div_mod_eq (y / 10 / 10) 10).
  pose proof (Nat.mod_upper_bound y 10).
  pose proof (Nat.mod_upper_bound (y / 10) 10).
  pose proof (Nat.mod_upper_bound (y / 10 / 10) 10).
  split; lia.
Qed.

Lemma field_Y_pad4 (y : nat) (rest : string) :
  (Z.of_nat y <= 9999)%Z -> field_Y (pad4 y ++ rest)%string = Some (y, rest).
Proof.
  intros H. unfold pad4. cbn [append field_Y].
  destruct (four_digits y) as [Sum Top].
  destruct (digit_char_digit (y / 1000)) as [A1 A2]; [auto|].
  destruct (digit_char_digit ((y / 100) mod 10)) as [B1 B2];
    [apply Nat.mod_upper_bound; lia|].
  destruct (digit_char_digit ((y / 10) mod 10)) as [C1 C2];
    [apply Nat.mod_upper_bound; lia|].
  destruct (digit_char_digit (y mod 10)) as [D1 D2];
    [apply Nat.mod_upper_bound; lia|].
  rewrite A1, B1, C1, D1, A2, B2, C2, D2. cbn [andb]. now rewrite Sum.
Qed.

Lemma field_pad2 (two : ascii -> ascii -> bool) (one : ascii -> bool) (lo hi : nat) :
  pad2_parses two lo hi = true ->
  forall n rest, lo <= n <= hi ->
    field two one (pad2 n ++ rest)%string = Some (n, rest).
Proof.
  unfold pad2_parses. intros P n rest Hn.
  rewrite forallb_forall in P.
  specialize (P n). rewrite in_seq in P.
  destruct (andb_prop _ _ (P ltac:(lia))) as [T V].
  apply Nat.eqb_eq in V.
  unfold pad2. cbn [append field]. rewrite T, V. reflexivity.
Qed.

Lemma match_format_isoformat {P : Platform} (t : datetime) :
  valid_datetime t = true -> 1000 <= year t ->
  match_format (isoformat t) = Some t.
Proof.
  intros V Y4. unfold valid_datetime in V.
  repeat (apply andb_true_iff in V as [V ?]).
  repeat match goal with
         | H : (_ <=? _) = true |- _ => apply Nat.leb_le in H
         | H : (_ <=? _)%Z = true |- _ => apply Z.leb_le in H
         end.
  assert (D : day t <= 31).
  { assert (days_in_month (year t) (month t) <= 31); [|lia].
    unfold days_in_month.
    destruct (month t) as [|[|[|[|[|[|[|[|[|[|[|[|m]]]]]]]]]]]];
      try destruct (is_leap _); lia. }
  unfold isoformat, match_format, year_text.
  rewrite (proj2 (Nat.leb_le 1000 (year t)) Y4).
  rewrite field_Y_pad4 by assumption.
  cbn [obind append literal Ascii.eqb Bool.eqb orb].
  rewrite (field_pad2 m_two m_one 1 12) by (reflexivity || lia).
  cbn [obind append literal Ascii.eqb Bool.eqb orb].
  rewrite (field_pad2 d_two d_one 1 31) by (reflexivity || lia).
  cbn [obind append literal Ascii.eqb Bool.eqb orb].
  rewrite (field_pad2 H_two H_one 0 23) by (reflexivity || lia).
  cbn [obind append literal Ascii.eqb Bool.eqb orb].
  rewrite (field_pad2 M_two M_one 0 59) by (reflexivity || lia).
  cbn [obind append literal Ascii.eqb Bool.eqb orb].
  rewrite (field_pad2 S_two S_one 0 59) by (reflexivity || lia).
  cbn [obind append literal Ascii.eqb Bool.eqb orb].
  destruct t; reflexivity.
Qed.

Lemma strptime_isoformat {P : Platform} (t : datetime) :
  valid_datetime t = true -> 1000 <= year t ->
  strptime (JStr (isoformat t)) = Ok t.
Proof.
  intros V Y4. unfold strptime. rewrite match_format_isoformat by assumption.
  now rewrite V.
Qed.

(** Why the year must have four digits: with glibc's [%Y] the year 999 is
    written with three, which [strptime] refuses. *)
Lemma short_year_not_read_back :
  isoformat (mkDatetime 999 6 1 11 32 0) = "999-06-01T11:32:00Z"
  /\ strptime (JStr "999-06-01T11:32:00Z") = Raise ValueError
  /\ strptime (JStr "0999-06-01T09:32:00Z") = Ok (mkDatetime 999 6 1 9 32 0)
  /\ strftime (mkDatetime 999 6 1 9 32 0) = "Jun 01, 999/09:32:00".
Proof. repeat split; reflexivity. Qed.

Lemma skipn_processed {A} (n : nat) (l done : list A) :
  length done = Nat.min n (length l) ->
  skipn n (done ++ skipn n l) = skipn n l.
Proof.
  intros L. rewrite skipn_app, L.
  rewrite (skipn_all2 done) by lia. cbn [app].
  destruct (Nat.le_gt_cases n (length l)) as [Hge|Hlt].
  - now replace (n - Nat.min n (length l)) with 0 by lia.
  - rewrite (skipn_all2 l) by lia. apply skipn_nil.
Qed.

(** C3. [build_rows] is the row of each of the first twenty events, in
    order, with the events after the twentieth left as they were; so it
    never returns more than twenty rows, an empty input gives no rows, well
    formed events always give min(20, n) rows, malformed events after the
    twentieth do no harm, and inputs of 0, 1, 20, 21 and 1000 events give
    0, 1, 20, 20 and 20 rows. *)
Theorem build_rows_cap_C3 {P : Platform} (events : list json) :
  build_rows events = build_rows_spec events
  /\ (forall rows left,
        build_rows events = Ok (rows, left) ->
        length rows = Nat.min 20 (length events)
        /\ length rows <= 20
        /\ skipn 20 left = skipn 20 events)
  /\ (forallb is_security_event (firstn 20 events) = true ->
      exists rows left,
        build_rows events = Ok (rows, left)
        /\ length rows = Nat.min 20 (length events))
  /\ build_rows [] = Ok ([], [])
  /\ (forall later,
        build_rows (repeat sqli_event 20 ++ later)
        = Ok (repeat sqli_row 20, repeat (JObj []) 20 ++ later))
  /\ map rows_from [0; 1; 20; 21; 1000]
     = [Some 0; Some 1; Some 20; Some 20; Some 20].
Proof.
  assert (Cap : forall rows left,
             build_rows events = Ok (rows, left) ->
             length rows = Nat.min 20 (length events)
             /\ length rows <= 20
             /\ skipn 20 left = skipn 20 events).
  { intros rows left. rewrite build_rows_refines. unfold build_rows_spec.
    destruct (traverse _ _) as [done|x] eqn:T; cbn [rbind]; [|discriminate].
    intros E. injection E as <- <-.
    apply traverse_length in T. rewrite length_firstn in T.
    rewrite length_map. split; [exact T|]. split; [lia|].
    apply (skipn_processed 20 events (map snd done)). now rewrite length_map. }
  split; [apply build_rows_refines|]. split; [exact Cap|].
  split; [|split; [reflexivity|split]].
  - intros W. rewrite forallb_forall in W.
    destruct (traverse_total jinja_item_dict (firstn 20 events)) as [done T].
    { apply Forall_forall. intros e He.
      apply jinja_item_dict_total. now apply W. }
    assert (E : build_rows events
                = Ok (map fst done, map snd done ++ skipn 20 events)).
    { rewrite build_rows_refines. unfold build_rows_spec. now rewrite T. }
    eexists _, _. split; [exact E|]. now apply Cap in E.
  - intros later. rewrite build_rows_refines. unfold build_rows_spec.
    reflexivity.
  - vm_compute. reflexivity.
Qed.

Lemma build_rows_cap_C3_witness :
  forallb is_security_event (firstn 20 (repeat sqli_event 21)) = true
  /\ exists rows left,
       build_rows (repeat sqli_event 21) = Ok (rows, left)
       /\ length rows = 20.
Proof.
  split; [reflexivity|].
  destruct (build_rows_cap_C3 (repeat sqli_event 21)) as (_ & _ & Total & _).
  destruct (Total eq_refl) as (rows & left & E & L).
  exists rows, left. split; [exact E | exact L].
Defined.



(* ------------------------------------------------------------------ *)
(** ** NOTIFIER and DRIVER *)

Lemma count_app (p : event -> bool) (a b : list event) :
  count p (a ++ b) = count p a + count p b.
Proof.
  unfold count. now rewrite filter_app, length_app.
Qed.

Lemma no_mail_app (a b : list event) : no_mail a -> no_mail b -> no_mail (a ++ b).
Proof.
  unfold no_mail. intros [A1 A2] [B1 B2]. rewrite !count_app. lia.
Qed.

Lemma fallback_events_no_mail (tail : list event) :
  forallb is_fallback_event tail = true -> no_mail tail.
Proof.
  induction tail as [|e tail IH]; simpl; [split; reflexivity|].
  intros H. apply andb_true_iff in H as [He Ht].
  destruct (IH Ht) as [IH1 IH2].
  destruct e; try discriminate; split; assumption.
Qed.

Lemma dumps_are_fallback_events (tail : list event) :
  forallb is_dump tail = true -> forallb is_fallback_event tail = true.
Proof.
  induction tail as [|e tail IH]; simpl; [reflexivity|].
  intros H. apply andb_true_iff in H as [He Ht].
  destruct e; try discriminate. simpl. auto.
Qed.

Section Driver.

Variable server : list event -> request -> response.
Variable render_template : string -> json -> string.
Context {P : Platform}.
Variable cfg : config.

Lemma login_no_mail (u p : json) (w : world) :
  exists l, trace (snd (login server u p w)) = trace w ++ l /\ no_mail l.
Proof.
  destruct (login_trace server u p w) as (tail & T & D).
  exists (login_sent server u p w ++ tail). split; [exact T|].
  apply no_mail_app; [split; reflexivity|].
  now apply fallback_events_no_mail, dumps_are_fallback_events.
Qed.

Lemma startup_no_mail (w : world) :
  exists l, trace (snd (startup server cfg w)) = trace w ++ l /\ no_mail l.
Proof.
  assert (Quiet : exists l, trace w = trace w ++ l /\ no_mail l).
  { exists []. rewrite app_nil_r. repeat split. }
  assert (Login : exists l,
             trace (snd ((do! access_token <- login server (USERNAME cfg) (PASSWORD cfg);
                          ret (access_token, @None json)) w))
             = trace w ++ l /\ no_mail l).
  { unfold bind, ret.
    destruct (login_no_mail (USERNAME cfg) (PASSWORD cfg) w) as (l & T & N).
    destruct (login _ _ _ _) as [[tok|e] w1]; simpl in *; eauto. }
  unfold startup, except_missing, load_tokens, bind, read_tokens, lift, ret in *.
  destruct (tokens_yaml w) as [doc|]; simpl; [|exact Login].
  destruct (py_getitem doc "access_token") as [a|[]]; simpl;
    try exact Quiet; try exact Login.
  destruct (py_getitem doc "refresh_token") as [r|[]]; simpl;
    try exact Quiet; try exact Login.
Qed.

Lemma get_security_incidents_no_mail (g : globals)
    (sid sub since until access_token : json) (w : world) :
  exists l,
    trace (snd (get_security_incidents server g sid sub since until access_token w))
    = trace w ++ l
    /\ no_mail l.
Proof.
  rewrite get_security_incidents_eq.
  set (resp1 := server (trace w) _).
  set (q1 := sec_incidents_query sid sub since until access_token).
  assert (One : no_mail [Post q1 resp1]) by (split; reflexivity).
  destruct (status_code resp1 =? 401)%Z; [|simpl; eauto].
  destruct (refresh_token g) as [rt|]; [|simpl; eauto].
  destruct (relogin_trace server g (username g) rt (after w [Post q1 resp1]))
    as (tail & T & F).
  assert (N : no_mail (relogin_sent server (username g) rt (after w [Post q1 resp1])
                       ++ tail)).
  { apply no_mail_app; [split; reflexivity|]. now apply fallback_events_no_mail. }
  destruct (relogin _ _ _ _ _) as [[new_token|e] w2]; simpl in T |- *; rewrite T.
  - rewrite <- !app_assoc. eexists. split; [reflexivity|].
    apply (no_mail_app [_]); [exact One|].
    rewrite app_assoc.
    apply no_mail_app; [exact N | split; reflexivity].
  - rewrite <- !app_assoc. eexists. split; [reflexivity|].
    apply (no_mail_app [_]); [exact One | exact N].
Qed.

Lemma send_report_eq (sec_inc_items : list json) (w : world) :
  send_report render_template cfg sec_inc_items w =
    match sec_inc_items with
    | [] => (Ok tt, w)
    | _ :: _ =>
        let data_dict := report_data cfg sec_inc_items in
        (Ok tt,
         after w [Render TEMPLATE_FILE data_dict;
                  SmtpLogin (EMAIL_ADDRESS cfg) (EMAIL_PASSWORD cfg);
                  Send (report_email cfg (render_template TEMPLATE_FILE data_dict))])
    end.
Proof.
  destruct sec_inc_items as [|row rows]; [reflexivity|].
  unfold send_report, generate_html_email_body, after, bind, emit, ret. simpl.
  rewrite <- !app_assoc. reflexivity.
Qed.

Lemma main_mail (time_since time_until : string) (w : world) :
  let run := main server render_template cfg time_since time_until in
  match fst (run w) with
  | Ok (_ :: _) => count is_render (events_of run w) = 1
                   /\ count is_send (events_of run w) = 1
  | _ => count is_render (events_of run w) = 0
         /\ count is_send (events_of run w) = 0
  end.
Proof.
  cbv zeta. unfold events_of, main, bind.
  destruct (startup_no_mail w) as (l1 & T1 & [R1 S1]).
  destruct (startup server cfg w) as [[[access_token rt]|e] w1]; simpl in T1;
    [|simpl; rewrite T1, since_trace_app; auto].
  match goal with
  | |- context [get_security_incidents server ?g ?a ?b ?c ?d ?t w1] =>
      destruct (get_security_incidents_no_mail g a b c d t w1) as (l2 & T2 & [R2 S2]);
      destruct (get_security_incidents server g a b c d t w1) as [[incidents|e] w2]
  end; simpl in T2;
    [|simpl; rewrite T2, T1, <- app_assoc, since_trace_app, !count_app; lia].
  unfold lift.
  destruct (sec_inc_items incidents) as [rows|e];
    [|simpl; rewrite T2, T1, <- app_assoc, since_trace_app, !count_app; lia].
  rewrite send_report_eq. unfold ret.
  destruct rows as [|row rows]; simpl;
    rewrite T2, T1, <- !app_assoc, since_trace_app, !count_app.
  - lia.
  - rewrite R1, R2, S1, S2. split; reflexivity.
Qed.

End Driver.

(** C9. The notifier runs exactly when there are rows: with no row
    [send_report] does nothing, with one or more it renders the template
    once and sends one message whose body is the rendered HTML and whose
    subject ends with the configured application name.  Over a whole run,
    a render and a send happen, once each, if and only if the run built at
    least one row; a run that fails earlier sends nothing. *)
Theorem email_iff_rows_C9 {P : Platform}
    (server : list event -> request -> response)
    (render_template : string -> json -> string)
    (cfg : config) (time_since time_until : string) (w : world) :
  let run := main server render_template cfg time_since time_until in
  let has_rows := exists row rows, fst (run w) = Ok (row :: rows) in
  send_report render_template cfg [] w = (Ok tt, w)
  /\ (forall row rows,
        let data_dict := report_data cfg (row :: rows) in
        let msg := report_email cfg (render_template TEMPLATE_FILE data_dict) in
        send_report render_template cfg (row :: rows) w
        = (Ok tt,
           after w [Render TEMPLATE_FILE data_dict;
                    SmtpLogin (EMAIL_ADDRESS cfg) (EMAIL_PASSWORD cfg);
                    Send msg])
        /\ html msg = render_template TEMPLATE_FILE data_dict
        /\ Subject msg = ("Attack detected for " ++ app_name cfg)%string
        /\ contains (app_name cfg) (Subject msg) = true)
  /\ (count is_render (events_of run w) = 1 <-> has_rows)
  /\ (count is_send (events_of run w) = 1 <-> has_rows)
  /\ (count is_render (events_of run w) = 0 <-> ~ has_rows)
  /\ (count is_send (events_of run w) = 0 <-> ~ has_rows).
Proof.
  cbv zeta. split; [reflexivity|]. split.
  - intros row rows. rewrite send_report_eq.
    repeat split. apply contains_append.
  - pose proof (main_mail server render_template cfg time_since time_until w) as H.
    cbv zeta in H.
    destruct (fst (main server render_template cfg time_since time_until w))
      as [[|row rows]|e]; cbv iota in H; destruct H as [R S]; rewrite R, S.
    + assert (N : ~ exists row rows, @Ok (list json) [] = Ok (row :: rows))
        by (intros (row & rows & E); discriminate).
      repeat split; intros; try reflexivity; try congruence; tauto.
    + assert (Y : exists row' rows', Ok (row :: rows) = Ok (row' :: rows'))
        by eauto.
      repeat split; intros; try reflexivity; try congruence; tauto.
    + assert (N : ~ exists row rows, @Raise (list json) e = Ok (row :: rows))
        by (intros (row & rows & E); discriminate).
      repeat split; intros; try reflexivity; try congruence; tauto.
Qed.

(** A run that finds the example event mails its row, once. *)
Lemma one_event_one_mail :
  let run := main one_event no_render shop
               "2023-06-01T05:32:00Z" "2023-06-01T08:32:00Z" in
  fst (run logged_in) = Ok [sqli_row]
  /\ filter is_send (events_of run logged_in)
     = [Send (mkEmail "Attack detected for shop" (JStr "monitor@example.org")
                "soc@example.org" "<html></html>")].
Proof.
  cbv zeta. split; reflexivity.
Qed.

(** A run that finds no event mails nothing. *)
Lemma no_event_no_mail :
  let run := main healthy no_render shop
               "2023-06-01T05:32:00Z" "2023-06-01T08:32:00Z" in
  fst (run logged_in) = Ok []
  /\ count is_render (events_of run logged_in) = 0
  /\ count is_send (events_of run logged_in) = 0.
Proof.
  cbv zeta. repeat split.
Qed.

(* ================================================================== *)
(** * Further properties of the script *)

(* ------------------------------------------------------------------ *)
(** ** The start-up block (lines 129-138) *)

Lemma login_events (server : list event -> request -> response)
    (u p : json) (w : world) :
  exists tail,
    trace (snd (login server u p w)) = trace w ++ login_sent server u p w ++ tail
    /\ (tail = [] \/ exists body, tail = [Dump body]).
Proof.
  pose proof (login_paths server u p w) as P.
  inversion P as [r _ E | body tok _ _ _ E]; simpl.
  - exists []. auto.
  - exists [Dump body]. eauto.
Qed.

Lemma startup_cases (server : list event -> request -> response)
    (cfg : config) (w : world) :
  (exists access_token refresh_token,
     startup server cfg w = (Ok (access_token, Some refresh_token), w))
  \/ startup server cfg w = (Raise TypeError, w)
  \/ (tokens_missing w /\ startup server cfg w = first_login server cfg w).
Proof.
  unfold startup, first_login, tokens_missing, except_missing, load_tokens,
    bind, read_tokens, lift, ret.
  destruct (tokens_yaml w) as [doc|] eqn:F; simpl; [|right; right; auto].
  destruct doc as [| | | | |fields]; simpl; auto.
  destruct (assoc "access_token" fields) as [a|] eqn:A; simpl.
  - destruct (assoc "refresh_token" fields) as [r|] eqn:R; simpl; [eauto|].
    right. right. split; [|reflexivity]. right. exists fields. auto.
  - right. right. split; [|reflexivity]. right. exists fields. auto.
Qed.

(** Without a usable token file the start-up block is one call of [login]
    with the configured credentials, whose outcome it passes on, and the
    global [refresh_token] stays unbound. *)
Theorem startup_logs_in (server : list event -> request -> response)
    (cfg : config) (w : world) :
  tokens_missing w ->
  startup server cfg w = first_login server cfg w
  /\ filter is_login_call (events_of (startup server cfg) w)
     = [CallLogin (USERNAME cfg) (PASSWORD cfg)]
  /\ fst (startup server cfg w)
     = match fst (login server (USERNAME cfg) (PASSWORD cfg) w) with
       | Ok access_token => Ok (access_token, None)
       | Raise e => Raise e
       end.
Proof.
  intros Miss.
  assert (E : startup server cfg w = first_login server cfg w).
  { unfold startup, first_login, except_missing, load_tokens, bind,
      read_tokens, lift, ret.
    destruct Miss as [N | (fields & F & [A | R])].
    - rewrite N. reflexivity.
    - rewrite F. simpl. rewrite A. reflexivity.
    - rewrite F. simpl.
      destruct (assoc "access_token" fields); simpl; rewrite ?R; reflexivity. }
  split; [exact E|].
  unfold events_of. rewrite E. unfold first_login, bind, ret.
  destruct (login_events server (USERNAME cfg) (PASSWORD cfg) w) as (tail & T & D).
  destruct (login server (USERNAME cfg) (PASSWORD cfg) w) as [[tok|e] w1];
    simpl in *; rewrite T, since_trace_app; simpl;
    (split; [|reflexivity]);
    destruct D as [-> | (body & ->)]; reflexivity.
Qed.

(** With both tokens in the file the start-up block takes them from it and
    does nothing else: no request, no write. *)
Theorem startup_uses_cached_tokens (server : list event -> request -> response)
    (cfg : config) (w : world) (doc access_token refresh_token : json) :
  tokens_yaml w = Some doc ->
  py_getitem doc "access_token" = Ok access_token ->
  py_getitem doc "refresh_token" = Ok refresh_token ->
  startup server cfg w = (Ok (access_token, Some refresh_token), w)
  /\ events_of (startup server cfg) w = [].
Proof.
  intros F A R.
  assert (E : startup server cfg w = (Ok (access_token, Some refresh_token), w)).
  { unfold startup, except_missing, load_tokens, bind, read_tokens, lift, ret.
    rewrite F. simpl. rewrite A. simpl. rewrite R. reflexivity. }
  split; [exact E|]. unfold events_of. rewrite E. simpl.
  rewrite <- (app_nil_r (trace w)) at 2. apply since_trace_app.
Qed.

Lemma startup_uses_cached_tokens_witness :
  startup healthy shop logged_in = (Ok (JStr "A0", Some R0), logged_in).
Proof.
  exact (proj1 (startup_uses_cached_tokens healthy shop logged_in
                  (JObj [("access_token", JStr "A0"); ("refresh_token", R0)])
                  (JStr "A0") R0 eq_refl eq_refl eq_refl)).
Defined.

(** A token file whose document is not a mapping (an empty file, a list, a
    scalar) stops the run with TypeError: the [except] clause does not catch
    it and [login] is not tried. *)
Theorem startup_rejects_non_mapping (server : list event -> request -> response)
    (cfg : config) (w : world) (doc : json) :
  tokens_yaml w = Some doc ->
  (forall fields, doc <> JObj fields) ->
  startup server cfg w = (Raise TypeError, w).
Proof.
  intros F N.
  unfold startup, except_missing, load_tokens, bind, read_tokens, lift, ret.
  rewrite F. simpl. destruct doc; try reflexivity. now elim (N fields).
Qed.

Lemma startup_rejects_non_mapping_witness :
  startup healthy shop empty_token_file = (Raise TypeError, empty_token_file).
Proof.
  apply (startup_rejects_non_mapping healthy shop empty_token_file JNull eq_refl).
  discriminate.
Defined.

Lemma startup_logs_in_witness :
  startup healthy shop no_tokens = first_login healthy shop no_tokens
  /\ fst (startup healthy shop no_tokens) = Ok (JStr "A1", None).
Proof.
  destruct (startup_logs_in healthy shop no_tokens (or_introl eq_refl))
    as (A & _ & B).
  split; [exact A | exact B].
Defined.

(* ------------------------------------------------------------------ *)
(** ** More on [get_security_incidents] (lines 81-102) *)

(** Any first answer other than a 401 ends the call: one request, no
    refresh, the token file untouched, and the decoded body is returned
    whatever the status (a 403 or a 500 is not turned into an error). *)
Theorem other_status_returned_as_is
    (server : list event -> request -> response) (g : globals)
    (sid sub since until access_token : json) (w : world) :
  let query := sec_incidents_query sid sub since until access_token in
  let resp := server (trace w) query in
  status_code resp <> 401%Z ->
  get_security_incidents server g sid sub since until access_token w
  = (response_json resp, after w [Post query resp]).
Proof.
  cbv zeta. intros N. rewrite get_security_incidents_eq.
  destruct (Z.eqb_spec (status_code
    (server (trace w) (sec_incidents_query sid sub since until access_token))) 401);
    [contradiction | reflexivity].
Qed.

Lemma other_status_returned_as_is_witness :
  fst (get_security_incidents forbidden alice_globals (JStr "instance-1")
         (JStr "subscription-1") (JStr "2023-06-01T05:32:00Z")
         (JStr "2023-06-01T08:32:00Z") (JStr "A0") fresh)
  = Ok (JObj [("error", JStr "forbidden")]).
Proof.
  rewrite (other_status_returned_as_is forbidden alice_globals (JStr "instance-1")
             (JStr "subscription-1") (JStr "2023-06-01T05:32:00Z")
             (JStr "2023-06-01T08:32:00Z") (JStr "A0") fresh).
  - reflexivity.
  - discriminate.
Defined.

Lemma unrecognized_not_rejected (marker : string) (resp : response) :
  unrecognized marker resp ->
  rejected_with marker resp = Ok false /\ (status_code resp =? 200)%Z = false.
Proof.
  intros [N200 H]. split; [|now apply Z.eqb_neq].
  destruct H as [N400 | (body & err & C & G & I)].
  - now apply rejected_with_other_status.
  - unfold rejected_with, response_json. rewrite C. simpl. rewrite G. simpl.
    rewrite I. destruct (status_code resp =? 400)%Z; reflexivity.
Qed.

(** When the first answer is a 401 and the refresh endpoint answers with
    something [relogin] does not recognize, the query is still sent again,
    with [None] in place of the token, and that second answer is returned. *)
Theorem retry_with_missing_token
    (server : list event -> request -> response) (g : globals)
    (sid sub since until access_token rt : json) (w : world) :
  let query := sec_incidents_query sid sub since until in
  let resp1 := server (trace w) (query access_token) in
  let w1 := after w [Post (query access_token) resp1] in
  let w2 := after w1 (relogin_sent server (username g) rt w1) in
  let resp2 := server (trace w2) (query JNull) in
  status_code resp1 = 401%Z ->
  refresh_token g = Some rt ->
  unrecognized "Failed to re-login." (relogin_response server (username g) rt w1) ->
  get_security_incidents server g sid sub since until access_token w
  = (response_json resp2, after w2 [Post (query JNull) resp2])
  /\ In ("Authorization", HBearer JNull) (headers (query JNull)).
Proof.
  cbv zeta. intros S401 Hrt U.
  rewrite get_security_incidents_eq. rewrite S401, Hrt. simpl.
  rewrite relogin_eq.
  rewrite (proj1 (unrecognized_not_rejected _ _ U)),
          (proj2 (unrecognized_not_rejected _ _ U)).
  split; [reflexivity|]. simpl. auto 10.
Qed.

Lemma retry_with_missing_token_witness :
  let run :=
    get_security_incidents refresh_down alice_globals
      (JStr "instance-1") (JStr "subscription-1")
      (JStr "2023-06-01T05:32:00Z") (JStr "2023-06-01T08:32:00Z") (JStr "A0") in
  fst (run fresh) = Ok (JObj [("events", JList [])])
  /\ filter is_post (events_of run fresh)
     = [Post (sec_incidents_query (JStr "instance-1") (JStr "subscription-1")
                (JStr "2023-06-01T05:32:00Z") (JStr "2023-06-01T08:32:00Z")
                (JStr "A0"))
             (mkResponse 401 None);
        Post (relogin_query alice R0) (mkResponse 503 None);
        Post (sec_incidents_query (JStr "instance-1") (JStr "subscription-1")
                (JStr "2023-06-01T05:32:00Z") (JStr "2023-06-01T08:32:00Z")
                JNull)
             no_events].
Proof.
  cbv zeta.
  destruct (retry_with_missing_token refresh_down alice_globals
              (JStr "instance-1") (JStr "subscription-1")
              (JStr "2023-06-01T05:32:00Z") (JStr "2023-06-01T08:32:00Z")
              (JStr "A0") R0 fresh eq_refl eq_refl) as [E _].
  - split; [discriminate | left; discriminate].
  - unfold events_of. rewrite E. split; reflexivity.
Defined.

(* ------------------------------------------------------------------ *)
(** ** Whole runs (lines 113-190) *)

Lemma main_eq {P : Platform} (server : list event -> request -> response)
    (render_template : string -> json -> string)
    (cfg : config) (time_since time_until : string) (w : world) :
  main server render_template cfg time_since time_until w =
    match startup server cfg w with
    | (Raise e, w1) => (Raise e, w1)
    | (Ok (access_token, refresh_token), w1) =>
        match get_security_incidents server (run_globals cfg refresh_token)
                (JStr (service_instance_id cfg)) (JStr (subscription_id cfg))
                (JStr time_since) (JStr time_until) access_token w1 with
        | (Raise e, w2) => (Raise e, w2)
        | (Ok security_incidents, w2) =>
            match sec_inc_items security_incidents with
            | Raise e => (Raise e, w2)
            | Ok rows => (Ok rows, snd (send_report render_template cfg rows w2))
            end
        end
    end.
Proof.
  unfold main, bind, run_globals.
  destruct (startup server cfg w) as [[[access_token refresh_token]|e] w1];
    [|reflexivity].
  destruct (get_security_incidents _ _ _ _ _ _ _ _) as [[inc|e] w2];
    [|reflexivity].
  unfold lift. destruct (sec_inc_items inc) as [rows|e]; [|reflexivity].
  rewrite send_report_eq. destruct rows; reflexivity.
Qed.

(** A run that had to log in at start-up cannot refresh: if its events
    query is answered with a 401, reading the global [refresh_token], which
    only the token file binds, raises NameError.  The run ends there, after
    one query, without calling [relogin] and without mail. *)
Theorem fresh_login_cannot_refresh {P : Platform}
    (server : list event -> request -> response)
    (render_template : string -> json -> string)
    (cfg : config) (time_since time_until : string)
    (w w1 : world) (access_token : json) :
  let query := run_query cfg time_since time_until access_token in
  let run := main server render_template cfg time_since time_until in
  tokens_missing w ->
  login server (USERNAME cfg) (PASSWORD cfg) w = (Ok access_token, w1) ->
  status_code (server (trace w1) query) = 401%Z ->
  run w = (Raise (NameError "refresh_token"),
           after w1 [Post query (server (trace w1) query)]).
Proof.
  cbv zeta. intros Miss L S401.
  rewrite main_eq.
  rewrite (proj1 (startup_logs_in server cfg w Miss)).
  unfold first_login, bind, ret. rewrite L.
  rewrite get_security_incidents_eq. unfold run_query in S401.
  rewrite S401. reflexivity.
Qed.

Lemma fresh_login_cannot_refresh_witness :
  fst (main rejects_fresh_token no_render shop
         "2023-06-01T05:32:00Z" "2023-06-01T08:32:00Z" no_tokens)
  = Raise (NameError "refresh_token").
Proof.
  rewrite (fresh_login_cannot_refresh rejects_fresh_token no_render shop
             "2023-06-01T05:32:00Z" "2023-06-01T08:32:00Z" no_tokens
             (snd (login rejects_fresh_token alice secret no_tokens))
             (JStr "A1") (or_introl eq_refl) eq_refl eq_refl).
  reflexivity.
Defined.

(** Refused credentials at start-up end the run at once: AuthenticationError
    after the single request to the login endpoint, no events query, no
    write, no mail. *)
Theorem rejected_credentials_end_run {P : Platform}
    (server : list event -> request -> response)
    (render_template : string -> json -> string)
    (cfg : config) (time_since time_until : string) (w : world) :
  let run := main server render_template cfg time_since time_until in
  tokens_missing w ->
  carries_error "Incorrect username or password"
    (login_response server (USERNAME cfg) (PASSWORD cfg) w) ->
  run w = (Raise (AuthenticationError bad_credentials_msg),
           after w (login_sent server (USERNAME cfg) (PASSWORD cfg) w))
  /\ events_of run w = login_sent server (USERNAME cfg) (PASSWORD cfg) w.
Proof.
  cbv zeta. intros Miss C. apply rejected_with_true in C.
  assert (E : main server render_template cfg time_since time_until w
              = (Raise (AuthenticationError bad_credentials_msg),
                 after w (login_sent server (USERNAME cfg) (PASSWORD cfg) w))).
  { rewrite main_eq.
    rewrite (proj1 (startup_logs_in server cfg w Miss)).
    unfold first_login, bind, ret. rewrite login_eq, C. reflexivity. }
  split; [exact E|]. unfold events_of. rewrite E. simpl. apply since_trace_app.
Qed.

Lemma rejected_credentials_end_run_witness :
  events_of (main locked_out no_render shop
               "2023-06-01T05:32:00Z" "2023-06-01T08:32:00Z") no_tokens
  = login_sent locked_out alice secret no_tokens.
Proof.
  apply (rejected_credentials_end_run locked_out no_render shop
           "2023-06-01T05:32:00Z" "2023-06-01T08:32:00Z" no_tokens
           (or_introl eq_refl)).
  split; [reflexivity|].
  exists (JObj [("error", JStr "Incorrect username or password")]),
         (JStr "Incorrect username or password").
  repeat split; reflexivity.
Defined.

(** When [login] at start-up gets an answer it does not recognize, the run
    goes on with [None] as access token: its events query is sent once, with
    [None] as bearer, and is never retried. *)
Theorem run_proceeds_without_token {P : Platform}
    (server : list event -> request -> response)
    (render_template : string -> json -> string)
    (cfg : config) (time_since time_until : string) (w : world) :
  let run := main server render_template cfg time_since time_until in
  let w1 := after w (login_sent server (USERNAME cfg) (PASSWORD cfg) w) in
  let query := run_query cfg time_since time_until JNull in
  tokens_missing w ->
  unrecognized "Incorrect username or password"
    (login_response server (USERNAME cfg) (PASSWORD cfg) w) ->
  filter is_post (events_of run w)
  = [Post (login_query (USERNAME cfg) (PASSWORD cfg))
       (login_response server (USERNAME cfg) (PASSWORD cfg) w);
     Post query (server (trace w1) query)].
Proof.
  cbv zeta. intros Miss U. apply unrecognized_not_rejected in U as [R S].
  unfold events_of. rewrite main_eq.
  rewrite (proj1 (startup_logs_in server cfg w Miss)).
  unfold first_login, bind, ret. rewrite login_eq, R, S.
  rewrite get_security_incidents_eq. unfold run_globals, run_query. simpl.
  destruct (status_code _ =? 401)%Z; simpl.
  - rewrite <- app_assoc, since_trace_app. reflexivity.
  - destruct (response_json _) as [inc|e]; simpl.
    + destruct (sec_inc_items inc) as [rows|e]; simpl.
      * rewrite send_report_eq. destruct rows; simpl;
          rewrite <- ?app_assoc, since_trace_app; reflexivity.
      * rewrite <- app_assoc, since_trace_app. reflexivity.
    + rewrite <- app_assoc, since_trace_app. reflexivity.
Qed.

Lemma run_proceeds_without_token_witness :
  filter is_post
    (events_of (main unavailable no_render shop
                  "2023-06-01T05:32:00Z" "2023-06-01T08:32:00Z") no_tokens)
  = [Post (login_query alice secret) (mkResponse 503 None);
     Post (run_query shop "2023-06-01T05:32:00Z" "2023-06-01T08:32:00Z" JNull)
          (mkResponse 503 None)].
Proof.
  apply (run_proceeds_without_token unavailable no_render shop
           "2023-06-01T05:32:00Z" "2023-06-01T08:32:00Z" no_tokens
           (or_introl eq_refl)).
  split; [discriminate | left; discriminate].
Defined.

(* ------------------------------------------------------------------ *)
(** ** What a run sends and writes, at most *)

Lemma tally_le_app (a b c d n a' b' c' d' n' : nat) (l l' : list event) :
  tally_le a b c d n l -> tally_le a' b' c' d' n' l' ->
  tally_le (a + a') (b + b') (c + c') (d + d') (n + n') (l ++ l').
Proof.
  unfold tally_le. intros (A & B & C & D & N) (A' & B' & C' & D' & N').
  rewrite !count_app. lia.
Qed.

Lemma tally_le_weaken (a b c d n a' b' c' d' n' : nat) (l : list event) :
  tally_le a b c d n l ->
  a <= a' -> b <= b' -> c <= c' -> d <= d' -> n <= n' ->
  tally_le a' b' c' d' n' l.
Proof.
  unfold tally_le. intros (A & B & C & D & N) ? ? ? ? ?. lia.
Qed.

Lemma tally_le_join (a b c d n a' b' c' d' n' A B C D N : nat)
    (l l' : list event) :
  tally_le a b c d n l -> tally_le a' b' c' d' n' l' ->
  a + a' <= A -> b + b' <= B -> c + c' <= C -> d + d' <= D -> n + n' <= N ->
  tally_le A B C D N (l ++ l').
Proof.
  intros T T' ? ? ? ? ?.
  eapply tally_le_weaken; [exact (tally_le_app _ _ _ _ _ _ _ _ _ _ _ _ T T')|lia..].
Qed.

Lemma only_requests_app (allowed : request -> Prop) (l l' : list event) :
  only_requests allowed l -> only_requests allowed l' ->
  only_requests allowed (l ++ l').
Proof.
  intros A B req resp I. apply in_app_or in I as [I|I]; eauto.
Qed.

Section Budget.

Variable server : list event -> request -> response.

Lemma login_budget (u p : json) (w : world) :
  exists l,
    trace (snd (login server u p w)) = trace w ++ l
    /\ tally_le 1 0 0 1 1 l
    /\ only_requests (fun req => req = login_query u p) l.
Proof.
  destruct (login_events server u p w) as (tail & T & D).
  exists (login_sent server u p w ++ tail). split; [exact T|].
  destruct D as [-> | (body & ->)]; simpl.
  - split; [repeat split; unfold count; simpl; lia|].
    intros req resp [I|[I|[]]]; [discriminate|]. now injection I as <- _.
  - split; [repeat split; unfold count; simpl; lia|].
    intros req resp [I|[I|[I|[]]]]; try discriminate. now injection I as <- _.
Qed.

Lemma relogin_budget (g : globals) (u rt : json) (w : world) :
  exists l,
    trace (snd (relogin server g u rt w)) = trace w ++ l
    /\ tally_le 1 1 0 1 2 l
    /\ only_requests
         (fun req => req = relogin_query u rt \/ req = login_query u (password g)) l.
Proof.
  assert (Own : tally_le 0 1 0 0 1 (relogin_sent server u rt w)
                /\ only_requests
                     (fun req => req = relogin_query u rt
                                 \/ req = login_query u (password g))
                     (relogin_sent server u rt w)).
  { split; [repeat split; unfold count; simpl; lia|].
    intros req resp [I|[I|[]]]; [discriminate|]. left. now injection I as <- _. }
  destruct Own as [Tally Only].
  pose proof (relogin_paths server g u rt w) as P.
  inversion P as [r _ E | body tok _ _ _ E | out _ Eo L E]; simpl.
  - exists (relogin_sent server u rt w). split; [reflexivity|]. split; [|exact Only].
    eapply tally_le_weaken; [exact Tally|lia..].
  - eexists (relogin_sent server u rt w ++ [Dump _]). split; [reflexivity|]. split.
    + apply (tally_le_join 0 1 0 0 1 0 0 0 1 0); [exact Tally| |lia..].
      repeat split; unfold count; simpl; lia.
    + apply only_requests_app; [exact Only|].
      intros req resp [I|[]]. discriminate.
  - rewrite Eo.
    destruct (login_budget u (password g) (after w (relogin_sent server u rt w)))
      as (l & T & B & O).
    rewrite T. simpl. rewrite <- app_assoc.
    exists (relogin_sent server u rt w ++ l). split; [reflexivity|]. split.
    + eapply tally_le_join; [exact Tally|exact B|lia..].
    + apply only_requests_app; [exact Only|].
      intros req resp I. right. eauto.
Qed.

Lemma get_security_incidents_budget (g : globals)
    (sid sub since until access_token : json) (w : world) :
  exists l,
    trace (snd (get_security_incidents server g sid sub since until access_token w))
    = trace w ++ l
    /\ tally_le 1 1 2 1 4 l
    /\ (refresh_token g = None -> tally_le 0 0 1 0 1 l)
    /\ only_requests
         (fun req =>
            (exists tok, req = sec_incidents_query sid sub since until tok)
            \/ (exists rt, req = relogin_query (username g) rt)
            \/ req = login_query (username g) (password g)) l.
Proof.
  rewrite get_security_incidents_eq.
  set (q1 := sec_incidents_query sid sub since until access_token).
  set (resp1 := server (trace w) q1).
  assert (One : tally_le 0 0 1 0 1 [Post q1 resp1]) by (repeat split; unfold count; simpl; lia).
  assert (Query : forall tok resp,
             only_requests
               (fun req =>
                  (exists tok, req = sec_incidents_query sid sub since until tok)
                  \/ (exists rt, req = relogin_query (username g) rt)
                  \/ req = login_query (username g) (password g))
               [Post (sec_incidents_query sid sub since until tok) resp]).
  { intros tok resp req resp' [I|[]]. injection I as <- _. eauto. }
  assert (Single : exists l,
             trace (after w [Post q1 resp1]) = trace w ++ l
             /\ tally_le 1 1 2 1 4 l
             /\ (refresh_token g = None -> tally_le 0 0 1 0 1 l)
             /\ only_requests
                  (fun req =>
                     (exists tok, req = sec_incidents_query sid sub since until tok)
                     \/ (exists rt, req = relogin_query (username g) rt)
                     \/ req = login_query (username g) (password g)) l).
  { exists [Post q1 resp1]. split; [reflexivity|].
    split; [eapply tally_le_weaken; [exact One|lia..]|].
    split; [intros _; exact One | apply Query]. }
  destruct (status_code resp1 =? 401)%Z; [|exact Single].
  destruct (refresh_token g) as [rt|]; [|exact Single].
  destruct (relogin_budget g (username g) rt (after w [Post q1 resp1]))
    as (l & T & B & O).
  assert (O' : only_requests
                 (fun req =>
                    (exists tok, req = sec_incidents_query sid sub since until tok)
                    \/ (exists rt, req = relogin_query (username g) rt)
                    \/ req = login_query (username g) (password g)) l).
  { intros req resp I. destruct (O req resp I) as [-> | ->]; eauto. }
  destruct (relogin _ _ _ _ _) as [[new_token|e] w2]; simpl in T |- *; rewrite T.
  - exists ([Post q1 resp1] ++ l ++ [Post (sec_incidents_query sid sub since until new_token)
                                   (server (trace w ++ Post q1 resp1 :: l)
                                      (sec_incidents_query sid sub since until new_token))]).
    split; [rewrite <- !app_assoc; reflexivity|].
    split; [|split; [discriminate|]].
    + apply (tally_le_join 0 0 1 0 1 1 1 1 1 3); [exact One| |lia..].
      apply (tally_le_join 1 1 0 1 2 0 0 1 0 1); [exact B| |lia..].
      repeat split; unfold count; simpl; lia.
    + apply only_requests_app; [apply Query|].
      apply only_requests_app; [exact O' | apply Query].
  - exists ([Post q1 resp1] ++ l).
    split; [rewrite <- !app_assoc; reflexivity|].
    split; [|split; [discriminate|]].
    + eapply tally_le_weaken;
        [apply (tally_le_app 0 0 1 0 1 1 1 0 1 2); [exact One | exact B]|lia..].
    + apply only_requests_app; [apply Query | exact O'].
Qed.

End Budget.

Section RunBudget.

Variable server : list event -> request -> response.
Variable render_template : string -> json -> string.
Context {P : Platform}.
Variable cfg : config.
Variables time_since time_until : string.

Lemma send_report_budget (rows : list json) (w : world) :
  exists l,
    trace (snd (send_report render_template cfg rows w)) = trace w ++ l
    /\ tally_le 0 0 0 0 0 l
    /\ only_requests (run_request cfg time_since time_until) l.
Proof.
  rewrite send_report_eq. destruct rows as [|row rows]; simpl.
  - exists []. rewrite app_nil_r. split; [reflexivity|].
    split; [repeat split; unfold count; simpl; lia|]. intros req resp [].
  - eexists. split; [reflexivity|].
    split; [repeat split; unfold count; simpl; lia|].
    intros req resp [I|[I|[I|[]]]]; discriminate.
Qed.

Lemma main_budget (w : world) :
  exists l,
    trace (snd (main server render_template cfg time_since time_until w))
    = trace w ++ l
    /\ tally_le 1 1 2 1 4 l
    /\ only_requests (run_request cfg time_since time_until) l.
Proof.
  assert (Nothing : exists l,
             trace w = trace w ++ l
             /\ tally_le 1 1 2 1 4 l
             /\ only_requests (run_request cfg time_since time_until) l).
  { exists []. rewrite app_nil_r. split; [reflexivity|].
    split; [repeat split; unfold count; simpl; lia|]. intros req resp []. }
  assert (After : forall (g : globals) access_token w1 l1 a b c d n a' b' c' d' n',
             username g = USERNAME cfg -> password g = PASSWORD cfg ->
             trace w1 = trace w ++ l1 ->
             tally_le a b c d n l1 ->
             only_requests (run_request cfg time_since time_until) l1 ->
             (forall l, tally_le 1 1 2 1 4 l ->
                        (refresh_token g = None -> tally_le 0 0 1 0 1 l) ->
                        tally_le a' b' c' d' n' l) ->
             a + a' <= 1 -> b + b' <= 1 -> c + c' <= 2 -> d + d' <= 1 ->
             n + n' <= 4 ->
             exists l,
               trace (snd
                 match get_security_incidents server g
                         (JStr (service_instance_id cfg)) (JStr (subscription_id cfg))
                         (JStr time_since) (JStr time_until) access_token w1 with
                 | (Raise e, w2) => (Raise e, w2)
                 | (Ok security_incidents, w2) =>
                     match sec_inc_items security_incidents with
                     | Raise e => (Raise e, w2)
                     | Ok rows =>
                         (Ok rows, snd (send_report render_template cfg rows w2))
                     end
                 end)
               = trace w ++ l
               /\ tally_le 1 1 2 1 4 l
               /\ only_requests (run_request cfg time_since time_until) l).
  { intros g access_token w1 l1 a b c d n a' b' c' d' n' Hu Hp T1 B1 O1 Pick
      ? ? ? ? ?.
    destruct (get_security_incidents_budget server g
                (JStr (service_instance_id cfg)) (JStr (subscription_id cfg))
                (JStr time_since) (JStr time_until) access_token w1)
      as (l2 & T2 & B2 & B2' & O2).
    assert (O2' : only_requests (run_request cfg time_since time_until) l2).
    { intros req resp I. destruct (O2 req resp I) as [(tok & ->) | [(rt & ->) | ->]].
      - right. right. exists tok. reflexivity.
      - right. left. exists rt. now rewrite Hu.
      - left. now rewrite Hu, Hp. }
    assert (B12 : tally_le 1 1 2 1 4 (l1 ++ l2)).
    { eapply tally_le_join; [exact B1 | exact (Pick l2 B2 B2') | lia..]. }
    destruct (get_security_incidents _ _ _ _ _ _ _ _) as [[inc|e] w2];
      simpl in T2.
    - destruct (sec_inc_items inc) as [rows|e]; simpl.
      + destruct (send_report_budget rows w2) as (l3 & T3 & B3 & O3).
        rewrite T3, T2, T1, <- !app_assoc.
        exists (l1 ++ l2 ++ l3). split; [reflexivity|]. split.
        * rewrite app_assoc.
          eapply tally_le_join; [exact B12 | exact B3 | lia..].
        * repeat apply only_requests_app; assumption.
      + rewrite T2, T1, <- app_assoc. exists (l1 ++ l2).
        split; [reflexivity|]. split; [exact B12|].
        apply only_requests_app; assumption.
    - simpl. rewrite T2, T1, <- app_assoc. exists (l1 ++ l2).
      split; [reflexivity|]. split; [exact B12|].
      apply only_requests_app; assumption. }
  rewrite main_eq.
  destruct (startup_cases server cfg w) as [(a & r & S) | [S | [_ S]]];
    rewrite S.
  - apply (After (run_globals cfg (Some r)) a w [] 0 0 0 0 0 1 1 2 1 4);
      try reflexivity; try lia.
    + now rewrite app_nil_r.
    + repeat split; unfold count; simpl; lia.
    + intros req resp [].
    + auto.
  - exact Nothing.
  - unfold first_login, bind, ret.
    destruct (login_budget server (USERNAME cfg) (PASSWORD cfg) w)
      as (l1 & T1 & B1 & O1).
    assert (O1' : only_requests (run_request cfg time_since time_until) l1).
    { intros req resp I. left. eauto. }
    destruct (login server (USERNAME cfg) (PASSWORD cfg) w) as [[tok|e] w1];
      simpl in T1.
    + apply (After (run_globals cfg None) tok w1 l1 1 0 0 1 1 0 0 1 0 1);
        try reflexivity; try lia; try assumption.
      intros l _ H. now apply H.
    + simpl. exists l1. split; [exact T1|]. split; [|exact O1'].
      eapply tally_le_weaken; [exact B1|lia..].
Qed.

End RunBudget.

(** One run sends at most one request to the login endpoint, one to the
    relogin endpoint and two to the events endpoint, four requests in all,
    and writes the token file at most once. *)
Theorem run_budget {P : Platform}
    (server : list event -> request -> response)
    (render_template : string -> json -> string)
    (cfg : config) (time_since time_until : string) (w : world) :
  let sent := events_of (main server render_template cfg time_since time_until) w in
  count (posts_to login_url) sent <= 1
  /\ count (posts_to relogin_url) sent <= 1
  /\ count (posts_to sec_incidents_url) sent <= 2
  /\ count is_dump sent <= 1
  /\ count is_post sent <= 4.
Proof.
  cbv zeta. unfold events_of.
  destruct (main_budget server render_template cfg time_since time_until w)
    as (l & T & B & _).
  rewrite T, since_trace_app. exact B.
Qed.

(** One run sends nothing but the login with the configured credentials,
    relogins for the configured user and the events query with the configured
    ids and window; so the password goes to the login endpoint only. *)
Theorem run_sends_only_its_requests {P : Platform}
    (server : list event -> request -> response)
    (render_template : string -> json -> string)
    (cfg : config) (time_since time_until : string) (w : world) :
  let sent := events_of (main server render_template cfg time_since time_until) w in
  (forall req resp,
     In (Post req resp) sent -> run_request cfg time_since time_until req)
  /\ (forall req resp,
        In (Post req resp) sent ->
        url req = login_url
        \/ py_getitem (data req) "password" = Raise (KeyError "password")).
Proof.
  cbv zeta. unfold events_of.
  destruct (main_budget server render_template cfg time_since time_until w)
    as (l & T & _ & O).
  rewrite T, since_trace_app. split; [exact O|].
  intros req resp I.
  destruct (O req resp I) as [-> | [(rt & ->) | (tok & ->)]]; auto.
Qed.

Lemma run_sends_only_its_requests_witness :
  run_request shop "2023-06-01T05:32:00Z" "2023-06-01T08:32:00Z"
    (login_query alice secret).
Proof.
  apply (proj1 (run_sends_only_its_requests rejects_fresh_token no_render shop
                  "2023-06-01T05:32:00Z" "2023-06-01T08:32:00Z" no_tokens)
           (login_query alice secret) (mkResponse 200 (token_body "A1" "R1"))).
  right. left. reflexivity.
Defined.

(** When the decoded answer of the events query has no [events] member, or is
    not a mapping at all, the run ends with KeyError or TypeError where the
    query left it: nothing is rendered or sent. *)
Theorem answer_without_events {P : Platform}
    (server : list event -> request -> response)
    (render_template : string -> json -> string)
    (cfg : config) (time_since time_until : string)
    (w w1 w2 : world) (access_token body : json) (rt : option json) :
  let run := main server render_template cfg time_since time_until in
  startup server cfg w = (Ok (access_token, rt), w1) ->
  get_security_incidents server (run_globals cfg rt)
    (JStr (service_instance_id cfg)) (JStr (subscription_id cfg))
    (JStr time_since) (JStr time_until) access_token w1 = (Ok body, w2) ->
  (forall fields, body = JObj fields -> assoc "events" fields = None ->
     run w = (Raise (KeyError "events"), w2))
  /\ ((forall fields, body <> JObj fields) -> run w = (Raise TypeError, w2)).
Proof.
  cbv zeta. intros S G. split.
  - intros fields -> A. rewrite main_eq, S, G.
    unfold sec_inc_items, py_getitem. rewrite A. reflexivity.
  - intros N. rewrite main_eq, S, G.
    destruct body; try reflexivity. now elim (N fields).
Qed.

Lemma answer_without_events_witness :
  let run := main always_401 no_render shop
               "2023-06-01T05:32:00Z" "2023-06-01T08:32:00Z" in
  fst (run logged_in) = Raise (KeyError "events")
  /\ count (posts_to sec_incidents_url) (events_of run logged_in) = 2.
Proof.
  cbv zeta.
  destruct (answer_without_events always_401 no_render shop
              "2023-06-01T05:32:00Z" "2023-06-01T08:32:00Z"
              logged_in logged_in
              (snd (get_security_incidents always_401 (run_globals shop (Some R0))
                      (JStr "instance-1") (JStr "subscription-1")
                      (JStr "2023-06-01T05:32:00Z") (JStr "2023-06-01T08:32:00Z")
                      (JStr "A0") logged_in))
              (JStr "A0") (JObj [("error", JStr "unauthorized")]) (Some R0)
              eq_refl eq_refl) as [K _].
  split.
  - rewrite (K [("error", JStr "unauthorized")] eq_refl eq_refl). reflexivity.
  - unfold events_of.
    rewrite (K [("error", JStr "unauthorized")] eq_refl eq_refl). reflexivity.
Defined.

(** When [relogin] falls back to [login] and [login] succeeds, the token
    file ends up holding the whole answer of the login endpoint (so also the
    refresh token it carries), not the pair [relogin] writes itself. *)
Theorem fallback_stores_login_answer
    (server : list event -> request -> response) (g : globals)
    (u rt : json) (w : world) (body access_token : json) :
  let w1 := after w (relogin_sent server u rt w) in
  carries_error "Failed to re-login." (relogin_response server u rt w) ->
  status_code (login_response server u (password g) w1) = 200%Z ->
  content (login_response server u (password g) w1) = Some body ->
  py_getitem body "access_token" = Ok access_token ->
  relogin server g u rt w
  = (Ok access_token,
     rewritten w1 (login_sent server u (password g) w1 ++ [Dump body]) body).
Proof.
  cbv zeta. intros C S200 Cb G. apply rejected_with_true in C.
  unfold relogin_sent in *.
  rewrite relogin_eq. cbv zeta. rewrite C. rewrite login_eq. cbv zeta.
  rewrite rejected_with_other_status by (rewrite S200; discriminate).
  rewrite S200. unfold response_json. rewrite Cb, G. reflexivity.
Qed.

Lemma fallback_stores_login_answer_witness :
  fst (relogin expired_refresh alice_globals alice R0 fresh) = Ok (JStr "A1")
  /\ tokens_yaml (snd (relogin expired_refresh alice_globals alice R0 fresh))
     = token_body "A1" "R1".
Proof.
  rewrite (fallback_stores_login_answer expired_refresh alice_globals alice R0 fresh
             (JObj [("access_token", JStr "A1"); ("refresh_token", JStr "R1")])
             (JStr "A1")).
  - split; reflexivity.
  - split; [reflexivity|].
    exists (JObj [("error", JStr "Failed to re-login.")]), (JStr "Failed to re-login.").
    repeat split; reflexivity.
  - reflexivity.
  - reflexivity.
  - reflexivity.
Defined.

(* ------------------------------------------------------------------ *)
(** ** More on the report rows (lines 149-169) *)

Lemma remove_key_filter (key : string) (fields : list (string * json)) :
  remove_key key fields
  = filter (fun field => negb (String.eqb (fst field) key)) fields.
Proof.
  induction fields as [|[k v] fields IH]; simpl; [reflexivity|].
  rewrite (String.eqb_sym k key), IH.
  destruct (String.eqb key k); reflexivity.
Qed.

Lemma filter_filter {A} (p q : A -> bool) (l : list A) :
  filter p (filter q l) = filter (fun a => q a && p a) l.
Proof.
  induction l as [|a l IH]; simpl; [reflexivity|].
  destruct (q a); simpl; [destruct (p a)|]; now rewrite IH.
Qed.

Lemma popped_keys_filtered (fields : list (string * json)) :
  remove_key "geo_country" (remove_key "source_ip"
    (remove_key "request_status" (remove_key "attack_types"
      (remove_key "detection_events" (remove_key "severity"
        (remove_key "uri" (remove_key "date_time" fields)))))))
  = filter is_kept fields.
Proof.
  rewrite !remove_key_filter, !filter_filter.
  apply filter_ext. intros [k v]. unfold is_kept, popped_keys. simpl.
  repeat match goal with
         | |- context [String.eqb k ?s] => destruct (String.eqb k s)
         end; reflexivity.
Qed.

(** Building a row takes the eight popped names out of the event and leaves
    every other field in place, in order. *)
Theorem row_pops_its_fields {P : Platform} (fields : list (string * json)) (row inc : json) :
  jinja_item_dict (JObj fields) = Ok (row, inc) ->
  inc = JObj (filter is_kept fields)
  /\ (forall key, In key popped_keys -> py_pop inc key = Ok (JNull, inc)).
Proof.
  rewrite jinja_item_dict_obj, popped_keys_filtered.
  destruct (strptime _) as [t|x]; cbn [rbind]; [|discriminate].
  destruct (py_join _ (dict_get "detection_events" fields)) as [d|x];
    cbn [rbind]; [|discriminate].
  destruct (py_join _ (dict_get "attack_types" fields)) as [a|x];
    cbn [rbind]; [|discriminate].
  destruct (py_title _) as [c|x]; cbn [rbind]; [|discriminate].
  intros E. injection E as <- <-. split; [reflexivity|].
  intros key K. unfold py_pop.
  assert (A : assoc key (filter is_kept fields) = None).
  { clear - K. induction fields as [|[k v] fields IH]; simpl; [reflexivity|].
    destruct (is_kept (k, v)) eqn:Keep; [|exact IH].
    simpl. destruct (String.eqb_spec key k) as [->|N]; [|exact IH].
    exfalso. unfold is_kept in Keep. apply negb_true_iff in Keep.
    assert (T : existsb (String.eqb (fst (k, v))) popped_keys = true).
    { apply existsb_exists. exists k. split; [exact K | apply String.eqb_refl]. }
    congruence. }
  now rewrite A.
Qed.

Lemma row_pops_its_fields_witness :
  snd (match jinja_item_dict sparse_event with
       | Ok out => out
       | Raise _ => (JNull, JNull)
       end)
  = JObj [("request_id", JStr "42")].
Proof.
  destruct (row_pops_its_fields
              [("date_time", JStr "2023-06-01T09:32:00Z");
               ("detection_events", JList []);
               ("request_id", JStr "42");
               ("attack_types", JList [JStr "xss"; JStr "sqli"]);
               ("geo_country", JStr "FRANCE")]
              (fst (match jinja_item_dict sparse_event with
                    | Ok out => out
                    | Raise _ => (JNull, JNull)
                    end))
              (snd (match jinja_item_dict sparse_event with
                    | Ok out => out
                    | Raise _ => (JNull, JNull)
                    end))
              eq_refl) as [E _].
  rewrite E. reflexivity.
Defined.

(** An event that lacks [date_time], [detection_events] or [attack_types]
    makes the row fail with TypeError, one that lacks [geo_country] with
    AttributeError; the first missing one, in that order, decides. *)
Theorem missing_required_field {P : Platform} (fields : list (string * json)) :
  (assoc "date_time" fields = None ->
   jinja_item_dict (JObj fields) = Raise TypeError)
  /\ (forall t,
        strptime (dict_get "date_time" fields) = Ok t ->
        assoc "detection_events" fields = None ->
        jinja_item_dict (JObj fields) = Raise TypeError)
  /\ (forall t des,
        strptime (dict_get "date_time" fields) = Ok t ->
        py_join ", " (dict_get "detection_events" fields) = Ok des ->
        assoc "attack_types" fields = None ->
        jinja_item_dict (JObj fields) = Raise TypeError)
  /\ (forall t des ats,
        strptime (dict_get "date_time" fields) = Ok t ->
        py_join ", " (dict_get "detection_events" fields) = Ok des ->
        py_join ", " (dict_get "attack_types" fields) = Ok ats ->
        assoc "geo_country" fields = None ->
        jinja_item_dict (JObj fields) = Raise AttributeError).
Proof.
  rewrite jinja_item_dict_obj. unfold dict_get. repeat split.
  - intros ->. reflexivity.
  - intros t -> ->. reflexivity.
  - intros t des -> -> ->. reflexivity.
  - intros t des ats -> -> -> ->. reflexivity.
Qed.

Lemma missing_required_field_witness :
  jinja_item_dict (JObj [("uri", JStr "/login")]) = Raise TypeError
  /\ jinja_item_dict
       (JObj [("date_time", JStr "2023-06-01T09:32:00Z");
              ("detection_events", JList []); ("attack_types", JList [])])
     = Raise AttributeError.
Proof.
  split.
  - apply (proj1 (missing_required_field [("uri", JStr "/login")])). reflexivity.
  - apply (proj2 (proj2 (proj2 (missing_required_field
             [("date_time", JStr "2023-06-01T09:32:00Z");
              ("detection_events", JList []); ("attack_types", JList [])])))
             (mkDatetime 2023 6 1 9 32 0) "" ""); reflexivity.
Defined.

(** An event that lacks [uri], [severity], [request_status] or [source_ip]
    still gives a row: the missing value is [None]. *)
Theorem missing_plain_field_is_none {P : Platform} (fields : list (string * json))
    (t : datetime) (des ats country : string) :
  strptime (dict_get "date_time" fields) = Ok t ->
  py_join ", " (dict_get "detection_events" fields) = Ok des ->
  py_join ", " (dict_get "attack_types" fields) = Ok ats ->
  assoc "geo_country" fields = Some (JStr country) ->
  exists row inc,
    jinja_item_dict (JObj fields) = Ok (row, inc)
    /\ forall key,
         In key ["uri"; "severity"; "request_status"; "source_ip"] ->
         py_getitem row key
         = Ok match assoc key fields with Some v => v | None => JNull end.
Proof.
  intros T D A G. rewrite jinja_item_dict_obj. rewrite T, D, A.
  unfold dict_get at 1. rewrite G. cbn [rbind py_title].
  eexists _, _. split; [reflexivity|].
  intros key [<-|[<-|[<-|[<-|[]]]]]; reflexivity.
Qed.

Lemma missing_plain_field_is_none_witness :
  exists row inc,
    jinja_item_dict sparse_event = Ok (row, inc)
    /\ py_getitem row "uri" = Ok JNull.
Proof.
  destruct (missing_plain_field_is_none
              [("date_time", JStr "2023-06-01T09:32:00Z");
               ("detection_events", JList []);
               ("request_id", JStr "42");
               ("attack_types", JList [JStr "xss"; JStr "sqli"]);
               ("geo_country", JStr "FRANCE")]
              (mkDatetime 2023 6 1 9 32 0) "" "xss, sqli" "FRANCE"
              eq_refl eq_refl eq_refl eq_refl) as (row & inc & E & K).
  exists row, inc. split; [exact E|]. apply (K "uri"). left. reflexivity.
Defined.

Lemma traverse_raises {A B} (f : A -> result B) (l : list A) (x : exn) :
  traverse f l = Raise x <->
  exists i a,
    nth_error l i = Some a
    /\ f a = Raise x
    /\ forall j b, j < i -> nth_error l j = Some b -> exists c, f b = Ok c.
Proof.
  induction l as [|a l IH]; simpl.
  - split; [discriminate|]. intros (i & a & N & _). destruct i; discriminate.
  - split.
    + destruct (f a) as [b|y] eqn:Fa; simpl.
      * destruct (traverse f l) as [bs|y] eqn:T; simpl; [discriminate|].
        intros E. injection E as ->.
        destruct (proj1 IH eq_refl) as (i & a' & N & F & Before).
        exists (S i), a'. repeat split; try assumption.
        intros [|j] b' Hj Nj; simpl in Nj.
        -- injection Nj as <-. eauto.
        -- apply (Before j b'); [lia | exact Nj].
      * intros E. injection E as ->. exists 0, a. repeat split; try assumption.
        intros j b Hj. lia.
    + intros ([|i] & a' & N & F & Before); simpl in N.
      * injection N as ->. now rewrite F.
      * destruct (Before 0 a) as [c Fc]; [lia | reflexivity|]. rewrite Fc. simpl.
        assert (T : traverse f l = Raise x).
        { apply IH. exists i, a'. repeat split; try assumption.
          intros j b Hj Nj. apply (Before (S j) b); [lia | exact Nj]. }
        now rewrite T.
Qed.

(** [build_rows] fails exactly when one of the first twenty events fails,
    and then with the exception of the earliest such event; what comes after
    the twentieth event cannot make it fail. *)
Theorem build_rows_fails_at_first_bad_event {P : Platform} (events : list json) (x : exn) :
  build_rows events = Raise x <->
  exists i e,
    i < 20
    /\ nth_error events i = Some e
    /\ jinja_item_dict e = Raise x
    /\ forall j e', j < i -> nth_error events j = Some e' ->
         exists out, jinja_item_dict e' = Ok out.
Proof.
  rewrite build_rows_refines. unfold build_rows_spec.
  assert (R : (try! done := traverse jinja_item_dict (firstn 20 events)
               in Ok (map fst done, map snd done ++ skipn 20 events)) = Raise x
              <-> traverse jinja_item_dict (firstn 20 events) = Raise x).
  { destruct (traverse _ _); cbn [rbind]; split; congruence. }
  rewrite R, traverse_raises. clear R. split.
  - intros (i & e & N & F & Before). rewrite nth_error_firstn in N.
    destruct (Nat.ltb_spec i 20) as [Hi|Hi]; [|discriminate].
    exists i, e. repeat split; try assumption.
    intros j e' Hj Nj. apply (Before j e' Hj).
    rewrite nth_error_firstn.
    destruct (Nat.ltb_spec j 20); [exact Nj | lia].
  - intros (i & e & Hi & N & F & Before). exists i, e. repeat split.
    + rewrite nth_error_firstn.
      destruct (Nat.ltb_spec i 20); [exact N | lia].
    + exact F.
    + intros j e' Hj Nj. rewrite nth_error_firstn in Nj.
      destruct (Nat.ltb_spec j 20); [|discriminate]. now apply (Before j e').
Qed.

Lemma build_rows_fails_at_first_bad_event_witness :
  build_rows [sqli_event; JObj [("uri", JStr "/login")]; JStr "junk"]
  = Raise TypeError.
Proof.
  apply (proj2 (build_rows_fails_at_first_bad_event
                  [sqli_event; JObj [("uri", JStr "/login")]; JStr "junk"]
                  TypeError)).
  exists 1, (JObj [("uri", JStr "/login")]).
  split; [lia|]. split; [reflexivity|]. split; [reflexivity|].
  intros [|j] e' Hj Nj; [|lia]. injection Nj as <-. eexists. reflexivity.
Defined.

(* ------------------------------------------------------------------ *)
(** ** The time window (lines 144-145) *)

Section OrdinalFacts.

Local Open Scope Z_scope.

Lemma all_in_block_spec (k : nat) (p : Z -> bool) :
  forall base,
    all_in_block k base p = true ->
    forall n, base <= n < base + 2 ^ Z.of_nat k -> p n = true.
Proof.
  induction k as [|k IH]; intros base H n Hn.
  - simpl in *. now replace n with base by lia.
  - cbn [all_in_block] in H. apply andb_true_iff in H as [H1 H2].
    rewrite Nat2Z.inj_succ, Z.pow_succ_r in Hn by lia.
    destruct (Z_lt_le_dec n (base + 2 ^ Z.of_nat k)) as [Hlt|Hge].
    + apply (IH base H1). lia.
    + apply (IH (base + 2 ^ Z.of_nat k) H2). lia.
Qed.

Lemma months_checked :
  all_in_block 9 0
    (fun n => negb (n <? 365) || (month_day_ok false n && month_day_ok true n))
  = true.
Proof.
  vm_compute. reflexivity.
Qed.

Lemma year_starts_checked :
  all_in_block 9 0 (fun k => negb (k <? 400) || year_start_ok k) = true.
Proof.
  vm_compute. reflexivity.
Qed.

Lemma month_day_spec (leapyear : bool) (n : Z) :
  0 <= n < 365 -> month_day_ok leapyear n = true.
Proof.
  intros Hn.
  pose proof (all_in_block_spec 9 _ 0 months_checked n) as H. cbv beta in H.
  replace (n <? 365) with true in H by (symmetry; apply Z.ltb_lt; lia).
  specialize (H ltac:(change (2 ^ Z.of_nat 9) with 512; lia)).
  apply andb_true_iff in H as [F T]. now destruct leapyear.
Qed.

Lemma year_start_spec (k : Z) : 0 <= k < 400 -> year_start_ok k = true.
Proof.
  intros Hk.
  pose proof (all_in_block_spec 9 _ 0 year_starts_checked k) as H. cbv beta in H.
  replace (k <? 400) with true in H by (symmetry; apply Z.ltb_lt; lia).
  apply H. change (2 ^ Z.of_nat 9) with 512. lia.
Qed.

(** The start and the leap flag of year [k + 1], for [k] given by its
    centuries, four-year blocks and years. *)
Lemma year_start (n100 n4 n1 : Z) :
  0 <= n100 <= 3 -> 0 <= n4 <= 24 -> 0 <= n1 <= 3 ->
  let k := 100 * n100 + 4 * n4 + n1 in
  days_before_year (k + 1) = n100 * 36524 + n4 * 1461 + n1 * 365
  /\ is_leap_year (k + 1) = (n1 =? 3) && (negb (n4 =? 24) || (n100 =? 3)).
Proof.
  intros H100 H4 H1 k.
  pose proof (year_start_spec k ltac:(unfold k; lia)) as Y.
  unfold year_start_ok in Y. cbv zeta in Y.
  assert (Q100 : k / 100 = n100).
  { symmetry. apply (Z.div_unique k 100 n100 (4 * n4 + n1)); unfold k; lia. }
  assert (R100 : k mod 100 = 4 * n4 + n1).
  { symmetry. apply (Z.mod_unique k 100 n100 (4 * n4 + n1)); unfold k; lia. }
  assert (Q4 : (4 * n4 + n1) / 4 = n4).
  { symmetry. apply (Z.div_unique _ 4 n4 n1); lia. }
  assert (R4 : k mod 4 = n1).
  { symmetry. apply (Z.mod_unique k 4 (25 * n100 + n4) n1); unfold k; lia. }
  rewrite Q100, R100, Q4, R4 in Y.
  apply andb_true_iff in Y as [Yd Yl].
  apply Z.eqb_eq in Yd. apply eqb_prop in Yl. auto.
Qed.

Lemma ord2ymd_cycle (r : Z) :
  0 <= r < 146097 ->
  ord2ymd (r + 1) =
    let n100 := r / 36524 in
    let r1 := r mod 36524 in
    let n4 := r1 / 1461 in
    let r2 := r1 mod 1461 in
    let n1 := r2 / 365 in
    let n := r2 mod 365 in
    let year := 1 + n100 * 100 + n4 * 4 + n1 in
    if (n1 =? 4) || (n100 =? 4) then (year - 1, 12, 31)
    else
      let '(m, d) :=
        month_day ((n1 =? 3) && (negb (n4 =? 24) || (n100 =? 3))) n in
      (year, m, d).
Proof.
  intros R. unfold ord2ymd, month_day, DI400Y, DI100Y, DI4Y. cbv zeta.
  replace (r + 1 - 1) with r by lia.
  rewrite (Z.div_small r 146097), (Z.mod_small r 146097) by exact R.
  destruct ((r mod 36524 mod 1461 / 365 =? 4) || (r / 36524 =? 4));
    [f_equal; f_equal; lia|].
  destruct (_ <? _); f_equal; f_equal; lia.
Qed.

Lemma cycle_day_from_zero (r : Z) :
  0 <= r < 146097 -> cycle_day_ok (r + 1) = true.
Proof.
  intros Hr.
  unfold cycle_day_ok. rewrite ord2ymd_cycle by exact Hr. cbv zeta.
  pose proof (Z.div_mod r 36524 ltac:(lia)) as E1.
  pose proof (Z.mod_pos_bound r 36524 ltac:(lia)) as B1.
  set (n100 := r / 36524) in *. set (r1 := r mod 36524) in *.
  pose proof (Z.div_mod r1 1461 ltac:(lia)) as E2.
  pose proof (Z.mod_pos_bound r1 1461 ltac:(lia)) as B2.
  set (n4 := r1 / 1461) in *. set (r2 := r1 mod 1461) in *.
  pose proof (Z.div_mod r2 365 ltac:(lia)) as E3.
  pose proof (Z.mod_pos_bound r2 365 ltac:(lia)) as B3.
  set (n1 := r2 / 365) in *. set (n := r2 mod 365) in *.
  clearbody n100 r1 n4 r2 n1 n.
  destruct ((n1 =? 4) || (n100 =? 4)) eqn:Special.
  - assert (K : exists a b c,
               0 <= a <= 3 /\ 0 <= b <= 24 /\ 0 <= c <= 3
               /\ 1 + n100 * 100 + n4 * 4 + n1 - 1 = 100 * a + 4 * b + c + 1
               /\ r + 1 = a * 36524 + b * 1461 + c * 365 + 366
               /\ (c =? 3) && (negb (b =? 24) || (a =? 3)) = true
               /\ (145731 <? r + 1) || (100 * a + 4 * b + c + 1 <=? 399) = true).
    { apply orb_true_iff in Special as [S|S]; apply Z.eqb_eq in S.
      - exists n100, n4, 3. repeat split; lia.
      - exists 3, 24, 3. repeat split; lia. }
    destruct K as (a & b & c & Ha & Hb & Hc & Ey & Er & Leap & Late).
    destruct (year_start a b c Ha Hb Hc) as [Yd Yl]. cbv zeta in Yd, Yl.
    rewrite Ey. unfold ymd2ord, days_before_month, days_in_month_of.
    rewrite Yd, Yl, Leap, Late.
    change (2 <? 12) with true. change (12 =? 2) with false.
    cbv [DAYS_BEFORE_MONTH DAYS_IN_MONTH andb].
    repeat (apply andb_true_iff; split); lia.
  - apply orb_false_iff in Special as [S1 S100].
    apply Z.eqb_neq in S1, S100.
    destruct (year_start n100 n4 n1 ltac:(lia) ltac:(lia) ltac:(lia)) as [Yd Yl].
    cbv zeta in Yd, Yl.
    set (leapyear := (n1 =? 3) && (negb (n4 =? 24) || (n100 =? 3))) in *.
    pose proof (month_day_spec leapyear n B3) as MD. unfold month_day_ok in MD.
    destruct (month_day leapyear n) as [m d].
    repeat (apply andb_true_iff in MD as [MD ?]).
    replace (1 + n100 * 100 + n4 * 4 + n1) with (100 * n100 + 4 * n4 + n1 + 1)
      by lia.
    unfold ymd2ord, days_before_month, days_in_month_of.
    rewrite Yd, Yl.
    assert (DIM : (if (m =? 2) && leapyear then 29 else DAYS_IN_MONTH m)
                  = DAYS_IN_MONTH m + (if (m =? 2) && leapyear then 1 else 0)).
    { destruct (Z.eqb_spec m 2) as [->|]; destruct leapyear; simpl; lia. }
    rewrite DIM.
    destruct ((2 <? m) && leapyear), ((m =? 2) && leapyear);
      repeat (apply andb_true_iff; split); lia.
Qed.

Lemma cycle_day (n : Z) : 1 <= n <= 146097 -> cycle_day_ok n = true.
Proof.
  intros Hn. replace n with (n - 1 + 1) by lia.
  apply cycle_day_from_zero. lia.
Qed.

Lemma is_leap_year_shift (y q : Z) : is_leap_year (y + 400 * q) = is_leap_year y.
Proof.
  unfold is_leap_year.
  replace (y + 400 * q) with (y + (100 * q) * 4) at 1 by lia.
  replace (y + 400 * q) with (y + (4 * q) * 100) at 1 by lia.
  replace (y + 400 * q) with (y + q * 400) by lia.
  now rewrite !Z.mod_add by lia.
Qed.

Lemma days_before_year_shift (y q : Z) :
  days_before_year (y + 400 * q) = days_before_year y + 146097 * q.
Proof.
  unfold days_before_year. cbv zeta.
  replace (y + 400 * q - 1) with (y - 1 + (100 * q) * 4) at 2 by lia.
  replace (y + 400 * q - 1) with (y - 1 + (4 * q) * 100) at 2 by lia.
  replace (y + 400 * q - 1) with (y - 1 + q * 400) at 2 by lia.
  rewrite !Z.div_add by lia. lia.
Qed.

Lemma ymd2ord_shift (y m d q : Z) :
  ymd2ord (y + 400 * q) m d = ymd2ord y m d + 146097 * q.
Proof.
  unfold ymd2ord, days_before_month.
  rewrite days_before_year_shift, is_leap_year_shift. lia.
Qed.

Lemma ord2ymd_shift (n : Z) :
  ord2ymd n =
    let '(y, m, d) := ord2ymd ((n - 1) mod 146097 + 1) in
    (y + 400 * ((n - 1) / 146097), m, d).
Proof.
  unfold ord2ymd, DI400Y. cbv zeta.
  replace ((n - 1) mod 146097 + 1 - 1) with ((n - 1) mod 146097) by lia.
  pose proof (Z.mod_pos_bound (n - 1) 146097 ltac:(lia)) as R.
  rewrite (Z.div_small ((n - 1) mod 146097) 146097) by exact R.
  rewrite (Z.mod_small ((n - 1) mod 146097) 146097) by exact R.
  set (r := (n - 1) mod 146097).
  set (q := (n - 1) / 146097).
  destruct ((r mod DI100Y mod DI4Y / 365 =? 4) || (r / DI100Y =? 4)).
  - f_equal. f_equal. lia.
  - destruct (_ <? _); f_equal; f_equal; lia.
Qed.

Lemma ord2ymd_spec (n : Z) :
  1 <= n <= MAXORDINAL ->
  let '(y, m, d) := ord2ymd n in
  ymd2ord y m d = n
  /\ 1 <= y <= 9999
  /\ 1 <= m <= 12
  /\ 1 <= d <= days_in_month_of y m.
Proof.
  unfold MAXORDINAL. intros Hn. rewrite ord2ymd_shift.
  pose proof (Z.mod_pos_bound (n - 1) 146097 ltac:(lia)) as R.
  pose proof (Z.div_mod (n - 1) 146097 ltac:(lia)) as DM.
  assert (Q : 0 <= (n - 1) / 146097 <= 24).
  { split; [apply Z.div_pos; lia|].
    assert ((n - 1) / 146097 < 25) by (apply Z.div_lt_upper_bound; lia). lia. }
  set (r := (n - 1) mod 146097) in *.
  set (q := (n - 1) / 146097) in *.
  pose proof (cycle_day (r + 1) ltac:(lia)) as C.
  unfold cycle_day_ok in C.
  destruct (ord2ymd (r + 1)) as [[y m] d].
  repeat (apply andb_true_iff in C as [C ?]).
  repeat match goal with
         | H : (_ <=? _) = true |- _ => apply Z.leb_le in H
         | H : (_ =? _) = true |- _ => apply Z.eqb_eq in H
         end.
  rewrite ymd2ord_shift.
  unfold days_in_month_of in *. rewrite is_leap_year_shift.
  repeat split; lia.
Qed.

End OrdinalFacts.

Section WindowFacts.

Local Open Scope Z_scope.

Lemma mod_is_zero (y k : nat) :
  (k <> 0)%nat ->
  Nat.eqb (y mod k) 0 = (Z.of_nat y mod Z.of_nat k =? 0).
Proof.
  intros K. rewrite <- Nat2Z.inj_mod.
  destruct (Nat.eqb_spec (y mod k) 0), (Z.eqb_spec (Z.of_nat (y mod k)) 0);
    try reflexivity; lia.
Qed.

Lemma is_leap_Z (y : nat) : is_leap y = is_leap_year (Z.of_nat y).
Proof.
  unfold is_leap, is_leap_year.
  rewrite (mod_is_zero y 4), (mod_is_zero y 100), (mod_is_zero y 400) by lia.
  reflexivity.
Qed.

Lemma days_in_month_Z (y m : nat) :
  (1 <= m <= 12)%nat ->
  Z.of_nat (days_in_month y m) = days_in_month_of (Z.of_nat y) (Z.of_nat m).
Proof.
  intros Hm. unfold days_in_month, days_in_month_of. rewrite is_leap_Z.
  assert (C : (m = 1 \/ m = 2 \/ m = 3 \/ m = 4 \/ m = 5 \/ m = 6 \/ m = 7
               \/ m = 8 \/ m = 9 \/ m = 10 \/ m = 11 \/ m = 12)%nat) by lia.
  repeat destruct C as [C|C]; subst m; simpl;
    try destruct (is_leap_year (Z.of_nat y)); reflexivity.
Qed.

Lemma valid_datetime_Z (t : datetime) :
  valid_datetime t = true <->
  1 <= Z.of_nat (year t) <= 9999
  /\ 1 <= Z.of_nat (month t) <= 12
  /\ 1 <= Z.of_nat (day t)
          <= days_in_month_of (Z.of_nat (year t)) (Z.of_nat (month t))
  /\ Z.of_nat (hour t) <= 23
  /\ Z.of_nat (minute t) <= 59
  /\ Z.of_nat (second t) <= 59.
Proof.
  unfold valid_datetime. rewrite !andb_true_iff, !Nat.leb_le, Z.leb_le.
  split.
  - intros ((((((((Y1 & Y2) & M1) & M2) & D1) & D2) & H) & Mi) & S).
    rewrite <- days_in_month_Z by lia. lia.
  - intros (Y & M & D & H & Mi & S).
    rewrite <- days_in_month_Z in D by lia. lia.
Qed.

Lemma years_checked :
  all_in_block 9 0
    (fun y => negb ((1 <=? y) && (y <=? 400)) || year_ok y) = true.
Proof.
  vm_compute. reflexivity.
Qed.

Lemma toordinal_bounds (t : datetime) :
  valid_datetime t = true ->
  1 <= toordinal t <= MAXORDINAL
  /\ ((2 <= year t)%nat -> 366 <= toordinal t).
Proof.
  intros V. apply valid_datetime_Z in V as (Y & M & D & _).
  unfold toordinal, MAXORDINAL.
  set (Yr := Z.of_nat (year t)) in *.
  assert (Y2 : (2 <= year t)%nat -> 2 <= Yr) by (unfold Yr; lia).
  clearbody Yr.
  pose proof (Z.div_mod (Yr - 1) 400 ltac:(lia)) as DM.
  pose proof (Z.mod_pos_bound (Yr - 1) 400 ltac:(lia)) as R.
  assert (Q : 0 <= (Yr - 1) / 400 < 25).
  { split; [apply Z.div_pos; lia | apply Z.div_lt_upper_bound; lia]. }
  set (q := (Yr - 1) / 400) in *. set (r := (Yr - 1) mod 400) in *.
  clearbody q r.
  replace Yr with (r + 1 + 400 * q) in * by lia.
  rewrite ymd2ord_shift.
  unfold days_in_month_of in D. rewrite is_leap_year_shift in D.
  fold (days_in_month_of (r + 1) (Z.of_nat (month t))) in D.
  pose proof (all_in_block_spec 9 _ 0 years_checked (r + 1)) as C.
  cbv beta in C.
  replace ((1 <=? r + 1) && (r + 1 <=? 400)) with true in C
    by (symmetry; apply andb_true_iff; split; apply Z.leb_le; lia).
  specialize (C ltac:(change (2 ^ Z.of_nat 9) with 512; lia)).
  simpl in C. unfold year_ok in C. rewrite forallb_forall in C.
  specialize (C (Z.of_nat (month t))).
  assert (In (Z.of_nat (month t)) [1; 2; 3; 4; 5; 6; 7; 8; 9; 10; 11; 12]) as I.
  { simpl. lia. }
  apply C in I. clear C.
  apply andb_true_iff in I as [I Far]. apply andb_true_iff in I as [Lo Hi].
  apply Z.leb_le in Lo, Hi.
  unfold ymd2ord in *.
  destruct (Z.leb_spec (r + 1) 399) as [Early|Late].
  - split; [lia|]. intros Y2'. specialize (Y2 Y2').
    apply orb_true_iff in Far as [Far|Far];
      [apply Z.ltb_lt in Far | apply Z.leb_le in Far]; lia.
  - split; [lia|]. intros Y2'. specialize (Y2 Y2').
    apply orb_true_iff in Far as [Far|Far];
      [apply Z.ltb_lt in Far | apply Z.leb_le in Far]; lia.
Qed.

(** [t - timedelta(0, seconds)] for a valid [t] and a non-negative number of
    seconds: the valid date and time that many seconds earlier, or
    OverflowError when that would fall before 0001-01-01T00:00:00. *)
Theorem minus_seconds_spec (t : datetime) (seconds : Z) :
  valid_datetime t = true ->
  0 <= seconds ->
  if 86400 <=? stamp t - seconds then
    exists earlier,
      minus_seconds t seconds = Some earlier
      /\ valid_datetime earlier = true
      /\ stamp earlier = stamp t - seconds
  else minus_seconds t seconds = None.
Proof.
  intros V Hs.
  destruct (toordinal_bounds t V) as [[Lo Hi] _].
  pose proof (proj1 (valid_datetime_Z t) V) as (_ & _ & _ & Hh & Hm & Hsec).
  unfold minus_seconds. cbv zeta.
  set (total := stamp t - seconds).
  assert (T : total <= toordinal t * 86400 + 86399).
  { unfold total, stamp. lia. }
  pose proof (Z.div_mod total 86400 ltac:(lia)) as DM.
  pose proof (Z.mod_pos_bound total 86400 ltac:(lia)) as R.
  set (days := total / 86400) in *.
  set (rest := total mod 86400) in *.
  destruct (Z.leb_spec 86400 total) as [Big|Small].
  - assert (D : 1 <= days <= MAXORDINAL) by (unfold MAXORDINAL in *; lia).
    replace ((0 <? days) && (days <=? MAXORDINAL)) with true
      by (symmetry; apply andb_true_iff; split;
          [apply Z.ltb_lt | apply Z.leb_le]; lia).
    pose proof (ord2ymd_spec days D) as O.
    destruct (ord2ymd days) as [[y m] d].
    destruct O as (Ord & Y & M & Dd).
    pose proof (Z.div_mod rest 3600 ltac:(lia)) as DM1.
    pose proof (Z.mod_pos_bound rest 3600 ltac:(lia)) as R1.
    pose proof (Z.div_mod (rest mod 3600) 60 ltac:(lia)) as DM2.
    pose proof (Z.mod_pos_bound (rest mod 3600) 60 ltac:(lia)) as R2.
    set (h := rest / 3600) in *.
    set (r1 := rest mod 3600) in *.
    set (mi := r1 / 60) in *.
    set (s := r1 mod 60) in *.
    assert (H0 : 0 <= h <= 23) by lia.
    assert (M0 : 0 <= mi <= 59) by lia.
    eexists. split; [reflexivity|]. split.
    + apply valid_datetime_Z. cbn [year month day hour minute second].
      rewrite !Z2Nat.id by lia. lia.
    + unfold stamp, toordinal. cbn [year month day hour minute second].
      rewrite !Z2Nat.id by lia. rewrite Ord. lia.
  - assert (D : days <= 0) by lia.
    replace (0 <? days) with false by (symmetry; apply Z.ltb_ge; lia).
    reflexivity.
Qed.

End WindowFacts.

Lemma minus_seconds_spec_witness :
  (exists earlier,
     minus_seconds new_year 3600 = Some earlier
     /\ valid_datetime earlier = true
     /\ stamp earlier = (stamp new_year - 3600)%Z)
  /\ minus_seconds (mkDatetime 1 1 1 0 59 59) 3600 = None.
Proof.
  split.
  - exact (minus_seconds_spec new_year 3600%Z eq_refl ltac:(discriminate)).
  - exact (minus_seconds_spec (mkDatetime 1 1 1 0 59 59) 3600%Z eq_refl
             ltac:(discriminate)).
Defined.

Section YearOfEarlier.

Local Open Scope Z_scope.

Lemma days_before_year_gap (y y' : Z) :
  y + 2 <= y' -> days_before_year y + 368 <= days_before_year y'.
Proof.
  intros G. unfold days_before_year. cbv zeta.
  pose proof (Z.div_mod (y - 1) 4 ltac:(lia)).
  pose proof (Z.mod_pos_bound (y - 1) 4 ltac:(lia)).
  pose proof (Z.div_mod (y - 1) 100 ltac:(lia)).
  pose proof (Z.mod_pos_bound (y - 1) 100 ltac:(lia)).
  pose proof (Z.div_mod (y - 1) 400 ltac:(lia)).
  pose proof (Z.mod_pos_bound (y - 1) 400 ltac:(lia)).
  pose proof (Z.div_mod (y' - 1) 4 ltac:(lia)).
  pose proof (Z.mod_pos_bound (y' - 1) 4 ltac:(lia)).
  pose proof (Z.div_mod (y' - 1) 100 ltac:(lia)).
  pose proof (Z.mod_pos_bound (y' - 1) 100 ltac:(lia)).
  pose proof (Z.div_mod (y' - 1) 400 ltac:(lia)).
  pose proof (Z.mod_pos_bound (y' - 1) 400 ltac:(lia)).
  lia.
Qed.

Lemma ymd2ord_in_year (y m d : Z) :
  1 <= m <= 12 -> 1 <= d <= days_in_month_of y m ->
  days_before_year y + 1 <= ymd2ord y m d <= days_before_year y + 366.
Proof.
  intros M D. unfold ymd2ord, days_before_month, days_in_month_of in *.
  set (start := days_before_year y). clearbody start.
  assert (C : m = 1 \/ m = 2 \/ m = 3 \/ m = 4 \/ m = 5 \/ m = 6 \/ m = 7
              \/ m = 8 \/ m = 9 \/ m = 10 \/ m = 11 \/ m = 12) by lia.
  repeat destruct C as [C|C]; subst m;
    destruct (is_leap_year y); simpl in *; lia.
Qed.

(** A date at most one day before another lies in the same year or in the
    year before. *)
Lemma year_of_earlier (t u : datetime) :
  valid_datetime t = true -> valid_datetime u = true ->
  toordinal t - 1 <= toordinal u ->
  (year t <= year u + 1)%nat.
Proof.
  intros Vt Vu O.
  apply valid_datetime_Z in Vt as (_ & Mt & Dt & _).
  apply valid_datetime_Z in Vu as (_ & Mu & Du & _).
  pose proof (ymd2ord_in_year _ _ _ Mt Dt) as Bt.
  pose proof (ymd2ord_in_year _ _ _ Mu Du) as Bu.
  unfold toordinal in O.
  destruct (Nat.le_gt_cases (year t) (year u + 1)) as [Le|Gt]; [exact Le|].
  pose proof (days_before_year_gap (Z.of_nat (year u)) (Z.of_nat (year t))
                ltac:(lia)).
  lia.
Qed.

Lemma toordinal_of_earlier (t u : datetime) (seconds : Z) :
  valid_datetime t = true -> valid_datetime u = true ->
  0 <= seconds <= 86400 ->
  stamp u = stamp t - seconds ->
  toordinal t - 1 <= toordinal u.
Proof.
  intros Vt Vu S E.
  apply valid_datetime_Z in Vt as (_ & _ & _ & Ht & Mt & St).
  apply valid_datetime_Z in Vu as (_ & _ & _ & Hu & Mu & Su).
  unfold stamp in E. lia.
Qed.

End YearOfEarlier.

(** The window of a run, for two readings of the clock after year 1:
    [time_until] is the valid instant one hour before its reading and
    [time_since] the one four hours before its own, so with a single reading
    the window is exactly three hours long and ends one hour in the past.
    For a reading from year 1001 on the bound has a four-digit year and its
    text is read back by [strptime] to the same instant. *)
Theorem time_window_spec {P : Platform} (now_until now_since : datetime) :
  valid_datetime now_until = true ->
  valid_datetime now_since = true ->
  2 <= year now_until ->
  2 <= year now_since ->
  exists time_until time_since,
    time_window now_until now_since
    = Some (isoformat time_since, isoformat time_until)
    /\ valid_datetime time_until = true
    /\ valid_datetime time_since = true
    /\ stamp time_until = (stamp now_until - 3600)%Z
    /\ stamp time_since = (stamp now_since - 14400)%Z
    /\ (now_since = now_until ->
        (stamp time_until - stamp time_since = 10800)%Z)
    /\ (1001 <= year now_until ->
        strptime (JStr (isoformat time_until)) = Ok time_until)
    /\ (1001 <= year now_since ->
        strptime (JStr (isoformat time_since)) = Ok time_since).
Proof.
  intros V1 V2 Y1 Y2.
  pose proof (minus_seconds_spec now_until 3600%Z V1 ltac:(lia)) as U.
  pose proof (minus_seconds_spec now_since 14400%Z V2 ltac:(lia)) as S.
  destruct (toordinal_bounds now_until V1) as [_ F1].
  destruct (toordinal_bounds now_since V2) as [_ F2].
  specialize (F1 Y1). specialize (F2 Y2).
  assert (B1 : (86400 <= stamp now_until - 3600)%Z) by (unfold stamp; lia).
  assert (B2 : (86400 <= stamp now_since - 14400)%Z) by (unfold stamp; lia).
  apply Z.leb_le in B1, B2. rewrite B1 in U. rewrite B2 in S.
  destruct U as (u & Eu & Vu & Su). destruct S as (s & Es & Vs & Ss).
  exists u, s. unfold time_window. rewrite Eu, Es.
  split; [reflexivity|]. split; [exact Vu|]. split; [exact Vs|].
  split; [exact Su|]. split; [exact Ss|].
  split; [intros ->; lia|]. split.
  - intros Y. apply strptime_isoformat; [exact Vu|].
    pose proof (year_of_earlier now_until u V1 Vu
                  (toordinal_of_earlier now_until u 3600%Z V1 Vu ltac:(lia) Su)).
    lia.
  - intros Y. apply strptime_isoformat; [exact Vs|].
    pose proof (year_of_earlier now_since s V2 Vs
                  (toordinal_of_earlier now_since s 14400%Z V2 Vs ltac:(lia) Ss)).
    lia.
Qed.

Lemma time_window_spec_witness :
  exists time_until time_since,
    time_window noon noon = Some (isoformat time_since, isoformat time_until)
    /\ strptime (JStr (isoformat time_until)) = Ok time_until
    /\ strptime (JStr (isoformat time_since)) = Ok time_since
    /\ (stamp time_until - stamp time_since = 10800)%Z.
Proof.
  destruct (time_window_spec noon noon eq_refl eq_refl
              (proj1 (Nat.leb_le 2 2023) eq_refl)
              (proj1 (Nat.leb_le 2 2023) eq_refl))
    as (u & s & E & _ & _ & _ & _ & Width & Pu & Ps).
  exists u, s. split; [exact E|].
  split; [exact (Pu (proj1 (Nat.leb_le 1001 2023) eq_refl))|].
  split; [exact (Ps (proj1 (Nat.leb_le 1001 2023) eq_refl))|].
  exact (Width eq_refl).
Defined.
